(** * go-http-template: the request pipeline of [main.go]

    A shallow embedding of the HTTP service of [main.go]: the
    [responseRecorder] wrapper, the [accesslog] and [recovery] middlewares,
    the [/health] and [/openapi.yaml] handlers and the route table, followed
    by the properties of the pipeline.

    Go code of [main.go] runs in a state-and-panic monad [M] over a [world]
    that holds the recorders allocated so far, the header map of the
    response, the state of the server's own response writer and the log.  A
    [http.ResponseWriter] interface value is a [wref]: either the server's
    writer or a pointer to a [responseRecorder]. *)

From Stdlib Require Import Strings.Byte.
From stdpp Require Import base numbers option list strings gmap pretty.

Local Open Scope Z_scope.

(** ** Go values *)

(** Values that travel through [panic]/[recover] (Go's [any]).  Interface
    comparison [err == http.ErrAbortHandler] is identity of the sentinel:
    another error with the same text is a different value. *)
Inductive any : Type :=
  | ErrAbortHandler
  | ErrorValue (msg : string)
  | StringValue (s : string).

#[global] Instance any_eq_dec : EqDecision any.
Proof. solve_decision. Defined.

(** [fmt.Sprintf("%v", err)]: an error prints its [Error()] text, a string
    prints itself. *)
Definition Sprint (v : any) : string :=
  match v with
  | ErrAbortHandler => "net/http: abort Handler"
  | ErrorValue msg => msg
  | StringValue s => s
  end.

(** Go's [error] results, by their text; [None] is [nil]. *)
Definition error := string.

Definition newline : string := String (Ascii.ascii_of_nat 10) "".

(** [[]byte(s)] *)
Definition bytes_of (s : string) : list byte := String.list_byte_of_string s.

(** Go's [int] is 64 bits wide and wraps around. *)
Definition wrapInt (z : Z) : Z := (z + 2 ^ 63) `mod` 2 ^ 64 - 2 ^ 63.

Definition maxInt : Z := 2 ^ 63 - 1.

(** [len(b)] *)
Definition len (b : list byte) : Z := Z.of_nat (length b).

(** [http.Header], a map from (canonical) header names to their values. *)
Abbreviation HeaderMap := (gmap string (list string)).

(** [h.Set(key, value)] replaces the values of [key] by the single [value];
    [h.Del(key)] removes them; [h.Get(key)] is the first value or the empty
    string.  Every key [main.go] uses is already in canonical form. *)
Definition Header_Set (key value : string) (h : HeaderMap) : HeaderMap := <[key := [value]]> h.
Definition Header_Del (key : string) (h : HeaderMap) : HeaderMap := delete key h.
Definition Header_Get (key : string) (h : HeaderMap) : string :=
  match h !! key with
  | Some (v :: _) => v
  | _ => ""
  end.

(** ** Outcomes of a call: normal return or panic *)

Inductive result (A : Type) : Type :=
  | Ok (a : A)
  | Panicked (v : any).
Arguments Ok {A} a.
Arguments Panicked {A} v.

Definition nilDereference : any :=
  ErrorValue "runtime error: invalid memory address or nil pointer dereference".

(** ** The request and the log *)

(** The fields of [*http.Request] that the pipeline reads. *)
Record Request : Type := mkRequest {
  Method : string;
  Path : string;        (* r.URL.Path *)
  RawQuery : string;    (* r.URL.RawQuery *)
  RemoteAddr : string
}.

(** One record per [slog] call of [main.go], with the attributes in source
    order.  The [latency] attribute of the access line is wall-clock time and
    is not part of the record. *)
Inductive logRecord : Type :=
  | LogAccessed (method path query ip : string) (status bytes : Z)
  | LogPanic (err : any) (stack : string) (method path query ip : string)
  | LogOpenapiWrite (err : error).

Definition isAccessed (l : logRecord) : bool :=
  match l with LogAccessed _ _ _ _ _ _ => true | _ => false end.

Definition isPanicLog (l : logRecord) : bool :=
  match l with LogPanic _ _ _ _ _ _ => true | _ => false end.

(** Number of access-log lines in a log. *)
Definition accessLines (ls : list logRecord) : nat := length (filter (λ l, isAccessed l = true) ls).

(** Number of error-level ["panic!"] lines in a log. *)
Definition panicLines (ls : list logRecord) : nat := length (filter (λ l, isPanicLog l = true) ls).

(** ** Response writers *)

(** A [http.ResponseWriter] interface value. *)
Inductive wref : Type :=
  | Conn                 (* the writer the server hands to the outermost handler *)
  | Rec (addr : nat).    (* &wr for a responseRecorder wr *)

(** [type responseRecorder struct { http.ResponseWriter; status int; numBytes int }] *)
Record responseRecorder : Type := mkRecorder {
  ResponseWriter : wref;
  status : Z;
  numBytes : Z
}.

(** The server's writer, as an interface: what [WriteHeader] and [Write] do
    to its state [T].  Both see the header map as it is at the time of the
    call; either may panic, and [Write] reports a count and an error. *)
Class Transport (T : Type) : Type := {
  tWriteHeader : Z → HeaderMap → T → T * result unit;
  tWrite : list byte → HeaderMap → T → T * result (Z * option error)
}.

(** The store of recorders.  The newest recorder is at the head and the
    address of a recorder is the number of recorders below it, so addresses
    are stable under allocation. *)
Abbreviation store := (list responseRecorder).

Fixpoint deref (h : store) (a : nat) : option responseRecorder :=
  match h with
  | [] => None
  | re :: h' => if (a =? length h')%nat then Some re else deref h' a
  end.

(** [type responseBody struct] of [handleGetHealth]. *)
Module responseBody.
Record t (Time : Type) : Type := mk {
  Version : string;     (* json:"version" *)
  Revision : string;    (* json:"vcs.revision" *)
  Time_ : Time;         (* json:"vcs.time" *)
  Modified : bool       (* json:"vcs.modified" *)
}.
Arguments mk {Time} _ _ _ _.
Arguments Version {Time} _.
Arguments Revision {Time} _.
Arguments Time_ {Time} _.
Arguments Modified {Time} _.
End responseBody.

(** What [main.go] takes from the build and from the Go libraries: the
    [Version] variable set by ldflags, the settings of
    [debug.ReadBuildInfo()] (taken to be there, as the code takes it), the
    embedded [api/openapi.yaml], and the library
    functions [time.Parse(time.RFC3339, _)] ([None] when it reports an error),
    [encoding/json]'s encoding of a [responseBody] (the bytes, or the error)
    and [runtime.Stack] (the trace, cut to the buffer size). *)
Class Build : Type := {
  time_Time : Type;
  zeroTime : time_Time;
  time_Parse : string → option time_Time;
  json_Marshal : responseBody.t time_Time → list byte + error;
  runtime_Stack : Z → bool → string;
  Version : string;
  buildSettings : list (string * string);
  openapi : list byte
}.

Section Pipeline.

Context {T : Type} {TR : Transport T} {B : Build}.

Record world : Type := mkWorld {
  heap : store;
  header : HeaderMap;     (* the map returned by Header() *)
  conn : T;
  logs : list logRecord
}.

(** ** The monad *)

Definition M (A : Type) : Type := world → world * result A.

Definition ret {A} (a : A) : M A := λ σ, (σ, Ok a).

Definition bind {A B} (m : M A) (k : A → M B) : M B :=
  λ σ, match m σ with
       | (σ', Ok a) => k a σ'
       | (σ', Panicked v) => (σ', Panicked v)
       end.

(** [panic(v)] *)
Definition panic {A} (v : any) : M A := λ σ, (σ, Panicked v).

#[global] Instance M_ret : MRet M := @ret.
#[global] Instance M_bind : MBind M := λ A B k m, bind m k.

(** [defer func() { err := recover(); d err }()] in front of [body]: the
    deferred function runs on both exits, [recover()] is [nil] on a normal
    return, and since it calls [recover] the function returns normally once
    the deferred function has returned. *)
Definition deferRecover (d : option any → M unit) (body : M unit) : M unit :=
  λ σ, match body σ with
       | (σ', Ok _) => d None σ'
       | (σ', Panicked v) => d (Some v) σ'
       end.

(** [slog.InfoContext] / [slog.ErrorContext]: one more record in the log. *)
Definition slog (l : logRecord) : M unit :=
  λ σ, (mkWorld (heap σ) (header σ) (conn σ) (logs σ ++ [l]), Ok tt).

(** [wr := responseRecorder{ResponseWriter: w}]; the result is [&wr]. *)
Definition newRecorder (w : wref) : M nat :=
  λ σ, (mkWorld (mkRecorder w 0 0 :: heap σ) (header σ) (conn σ) (logs σ),
        Ok (length (heap σ))).

(** Reading the fields of the recorder at an address. *)
Definition load (a : nat) : M responseRecorder :=
  λ σ, match deref (heap σ) a with
       | Some re => (σ, Ok re)
       | None => (σ, Panicked nilDereference)
       end.

(** ** Method calls on a [http.ResponseWriter]

    A call on [Conn] goes to the server's writer.  A call on [Rec a] runs the
    [responseRecorder] method on the recorder at [a]; that method delegates
    to the writer the recorder embeds, which was allocated before the
    recorder and so is resolved in the store below it. *)

(** [func (re *responseRecorder) WriteHeader(statusCode int)] *)
Fixpoint callWriteHeader (h : store) (w : wref) (statusCode : Z) (hd : HeaderMap) (c : T)
  : store * T * result unit :=
  match w with
  | Conn => let '(c', r) := tWriteHeader statusCode hd c in (h, c', r)
  | Rec a =>
      match h with
      | [] => (h, c, Panicked nilDereference)
      | re :: h' =>
          if (a =? length h')%nat then
            (* re.status = statusCode *)
            let re' := mkRecorder (ResponseWriter re) statusCode (numBytes re) in
            (* re.ResponseWriter.WriteHeader(statusCode) *)
            let '(h'', c', r) := callWriteHeader h' (ResponseWriter re) statusCode hd c in
            (re' :: h'', c', r)
          else
            let '(h'', c', r) := callWriteHeader h' w statusCode hd c in
            (re :: h'', c', r)
      end
  end.

(** [func (re *responseRecorder) Write(b []byte) (int, error)] *)
Fixpoint callWrite (h : store) (w : wref) (b : list byte) (hd : HeaderMap) (c : T)
  : store * T * result (Z * option error) :=
  match w with
  | Conn => let '(c', r) := tWrite b hd c in (h, c', r)
  | Rec a =>
      match h with
      | [] => (h, c, Panicked nilDereference)
      | re :: h' =>
          if (a =? length h')%nat then
            (* re.numBytes += len(b) *)
            let re' := mkRecorder (ResponseWriter re) (status re) (wrapInt (numBytes re + len b)) in
            (* return re.ResponseWriter.Write(b) *)
            let '(h'', c', r) := callWrite h' (ResponseWriter re) b hd c in
            (re' :: h'', c', r)
          else
            let '(h'', c', r) := callWrite h' w b hd c in
            (re :: h'', c', r)
      end
  end.

(** The header map a writer returns. *)
Inductive headerRef : Type := responseHeader.

(** [func (re *responseRecorder) Header() http.Header]: the map of the
    embedded writer, down to the server's. *)
Fixpoint callHeader (h : store) (w : wref) : result headerRef :=
  match w with
  | Conn => Ok responseHeader
  | Rec a =>
      match h with
      | [] => Panicked nilDereference
      | re :: h' =>
          if (a =? length h')%nat then callHeader h' (ResponseWriter re)
          else callHeader h' w
      end
  end.

(** [w.WriteHeader(statusCode)] *)
Definition WriteHeader (w : wref) (statusCode : Z) : M unit :=
  λ σ, let '(h, c, r) := callWriteHeader (heap σ) w statusCode (header σ) (conn σ) in
       (mkWorld h (header σ) c (logs σ), r).

(** [w.Write(b)] *)
Definition Write (w : wref) (b : list byte) : M (Z * option error) :=
  λ σ, let '(h, c, r) := callWrite (heap σ) w b (header σ) (conn σ) in
       (mkWorld h (header σ) c (logs σ), r).

(** [w.Header()] *)
Definition Header (w : wref) : M headerRef :=
  λ σ, (σ, callHeader (heap σ) w).

(** [h.Set(key, value)] and [h.Del(key)] on the map of the response. *)
Definition Set_ (h : headerRef) (key value : string) : M unit :=
  λ σ, (mkWorld (heap σ) (Header_Set key value (header σ)) (conn σ) (logs σ), Ok tt).

Definition Del (h : headerRef) (key : string) : M unit :=
  λ σ, (mkWorld (heap σ) (Header_Del key (header σ)) (conn σ) (logs σ), Ok tt).

(** [http.Error(w, error, code)] of net/http: it resets the content headers,
    sends the status and prints the text followed by a newline
    ([fmt.Fprintln(w, error)]), whose result it drops. *)
Definition http_Error (w : wref) (error : string) (code : Z) : M unit :=
  h ← Header w;
  Del h "Content-Length";;
  Set_ h "Content-Type" "text/plain; charset=utf-8";;
  Set_ h "X-Content-Type-Options" "nosniff";;
  WriteHeader w code;;
  _ ← Write w (bytes_of (error +:+ newline));
  mret tt.

(** ** Handlers and middlewares *)

(** [http.Handler]: [ServeHTTP(w, r)]. *)
Definition Handler : Type := wref → Request → M unit.

(** [json.NewEncoder(w).Encode(v)]: the encoding followed by a newline goes
    out in one [Write]; the result is the encoding error or else the error of
    that [Write]. *)
Definition json_Encode (w : wref) (v : responseBody.t time_Time) : M (option error) :=
  match json_Marshal v with
  | inr e => mret (Some e)
  | inl b => '(_, err) ← Write w (b ++ bytes_of newline); mret err
  end.

(** One turn of the loop over [buildInfo.Settings] in [handleGetHealth]. *)
Definition healthSetting (res : responseBody.t time_Time) (kv : string * string)
  : responseBody.t time_Time :=
  let '(key, value) := kv in
  if decide (value = "") then res
  else if decide (key = "vcs.revision") then
    responseBody.mk (responseBody.Version res) value
                    (responseBody.Time_ res) (responseBody.Modified res)
  else if decide (key = "vcs.time") then
    responseBody.mk (responseBody.Version res) (responseBody.Revision res)
                    (default zeroTime (time_Parse value)) (responseBody.Modified res)
  else if decide (key = "vcs.modified") then
    responseBody.mk (responseBody.Version res) (responseBody.Revision res)
                    (responseBody.Time_ res) (bool_decide (value = "true"))
  else res.

(** The [res] that [handleGetHealth] builds before it returns its closure. *)
Definition healthResponse : responseBody.t time_Time :=
  foldl healthSetting (responseBody.mk Version "" zeroTime false) buildSettings.

(** [func handleGetHealth() http.HandlerFunc] *)
Definition handleGetHealth : Handler :=
  let res := healthResponse in
  λ w r,
    h ← Header w;
    Set_ h "Content-Type" "application/json";;
    WriteHeader w 200;;
    err ← json_Encode w res;
    match err with
    | Some e => http_Error w e 500
    | None => mret tt
    end.

(** [func handleGetOpenapi() http.HandlerFunc] *)
Definition handleGetOpenapi : Handler :=
  λ w r,
    h ← Header w;
    Set_ h "Content-Type" "text/plain";;
    h ← Header w;
    Set_ h "Access-Control-Allow-Origin" "*";;
    WriteHeader w 200;;
    '(_, err) ← Write w openapi;
    match err with
    | Some e => slog (LogOpenapiWrite e)
    | None => mret tt
    end.

(** [func accesslog(next http.Handler) http.Handler].  [start := time.Now()]
    only feeds the [latency] attribute and is left out with it. *)
Definition accesslog (next : Handler) : Handler :=
  λ w r,
    wr ← newRecorder w;
    next (Rec wr) r;;
    re ← load wr;
    slog (LogAccessed (Method r) (Path r) (RawQuery r) (RemoteAddr r)
                      (status re) (numBytes re)).

(** The deferred function of [recovery], given the result of [recover()]. *)
Definition recovered (w : wref) (r : Request) (wr : nat) (err : option any) : M unit :=
  match err with
  | None => mret tt
  | Some err =>
      if decide (err = ErrAbortHandler) then mret tt
      else
        let stack := runtime_Stack 1024 true in
        slog (LogPanic err stack (Method r) (Path r) (RawQuery r) (RemoteAddr r));;
        re ← load wr;
        if decide (status re = 0) then http_Error w (Sprint err) 500
        else mret tt
  end.

(** [func recovery(next http.Handler) http.Handler] *)
Definition recovery (next : Handler) : Handler :=
  λ w r,
    wr ← newRecorder w;
    deferRecover (recovered w r wr) (next (Rec wr) r).

(** What the [ServeMux] of [route] does with a request that is not a GET of
    one of its two exact patterns: the [/debug/] sub-tree of
    [handleGetDebug] and net/http's own replies. *)
Context (muxRest : Handler).

Definition mux : Handler :=
  λ w r,
    if decide (Method r = "GET" ∧ Path r = "/health") then handleGetHealth w r
    else if decide (Method r = "GET" ∧ Path r = "/openapi.yaml") then handleGetOpenapi w r
    else muxRest w r.

(** [func route() http.Handler] *)
Definition route : Handler :=
  let handler := accesslog mux in
  let handler := recovery handler in
  handler.

(** ** Vocabulary of the statements *)

(** The world a middleware hands to its downstream handler: its recorder
    [wr] sits on top of the store, at address [length (heap σ)]. *)
Definition withRecorder (w : wref) (σ : world) : world :=
  mkWorld (mkRecorder w 0 0 :: heap σ) (header σ) (conn σ) (logs σ).

(** The world after one more log record. *)
Definition logged (l : logRecord) (σ : world) : world :=
  mkWorld (heap σ) (header σ) (conn σ) (logs σ ++ [l]).

(** A writer that exists in a store: the server's, or an allocated recorder. *)
Definition allocated (h : store) (w : wref) : Prop :=
  match w with
  | Conn => True
  | Rec b => (b < length h)%nat
  end.

(** [keeps a m]: the action [m] adds nothing to the log and leaves the
    recorder at address [a] as it is. *)
Definition keeps {A} (a : nat) (m : M A) : Prop :=
  ∀ σ, logs (m σ).1 = logs σ ∧ deref (heap (m σ).1) a = deref (heap σ) a.

(** The world after the ["panic!"] record of [recovery]. *)
Definition panicLogged (v : any) (r : Request) (σ : world) : world :=
  logged (LogPanic v (runtime_Stack 1024 true) (Method r) (Path r) (RawQuery r) (RemoteAddr r)) σ.

(** A store with one more recorder on top. *)
Definition onTop (re : responseRecorder) (σ : world) : world :=
  mkWorld (re :: heap σ) (header σ) (conn σ) (logs σ).

(** The calls a handler makes on its writer. *)
Inductive call : Type :=
  | DoWrite (b : list byte)             (* w.Write(b) *)
  | DoWriteHeader (statusCode : Z)      (* w.WriteHeader(statusCode) *)
  | DoSet (key value : string).         (* w.Header().Set(key, value) *)

(** What a call gives back. *)
Inductive outcome : Type :=
  | Wrote (o : result (Z * option error))
  | Returned (o : result unit).

Definition doCall (w : wref) (c : call) (σ : world) : world * outcome :=
  match c with
  | DoWrite b => let '(σ', o) := Write w b σ in (σ', Wrote o)
  | DoWriteHeader statusCode => let '(σ', o) := WriteHeader w statusCode σ in (σ', Returned o)
  | DoSet key value => let '(σ', o) := (h ← Header w; Set_ h key value) σ in (σ', Returned o)
  end.

(** A sequence of calls on one writer, with the outcome of each.  The
    sequence goes on after a call that failed or panicked, as a handler that
    recovers may. *)
Fixpoint callEach (w : wref) (cs : list call) (σ : world) : world * list outcome :=
  match cs with
  | [] => (σ, [])
  | c :: cs' =>
      let '(σ1, o) := doCall w c σ in
      let '(σ2, os) := callEach w cs' σ1 in
      (σ2, o :: os)
  end.

(** The sum of [len(b)] over the [Write] calls of a sequence. *)
Fixpoint bytesPassed (cs : list call) : Z :=
  match cs with
  | [] => 0
  | DoWrite b :: cs' => len b + bytesPassed cs'
  | _ :: cs' => bytesPassed cs'
  end.

(** The code of the last [WriteHeader] call of a sequence, if there is one. *)
Fixpoint lastCode (cs : list call) : option Z :=
  match cs with
  | [] => None
  | c :: cs' =>
      match lastCode cs' with
      | Some code => Some code
      | None => match c with DoWriteHeader code => Some code | _ => None end
      end
  end.

(** What one call on a recorder leaves in its fields. *)
Definition recorded (re : responseRecorder) (c : call) : responseRecorder :=
  match c with
  | DoWrite b => mkRecorder (ResponseWriter re) (status re) (wrapInt (numBytes re + len b))
  | DoWriteHeader statusCode => mkRecorder (ResponseWriter re) statusCode (numBytes re)
  | DoSet _ _ => re
  end.

(** A straight-line handler body: the calls of [cs] in order on [w], each
    one made only if the ones before it returned. *)
Fixpoint perform (w : wref) (cs : list call) : M unit :=
  match cs with
  | [] => mret tt
  | DoWrite b :: cs' => _ ← Write w b; perform w cs'
  | DoWriteHeader statusCode :: cs' => WriteHeader w statusCode;; perform w cs'
  | DoSet key value :: cs' => h ← Header w; Set_ h key value;; perform w cs'
  end.

(** The value that the last entry for [key] with a value other than the
    empty string gives, in a list of build settings. *)
Definition lastValue (key : string) (settings : list (string * string)) : option string :=
  last (omap (λ kv, if decide (kv.1 = key ∧ kv.2 ≠ "") then Some kv.2 else None) settings).

(** The keys that the loop of [handleGetHealth] reads. *)
Definition healthKeys : list string := ["vcs.revision"; "vcs.time"; "vcs.modified"].

(** The body of every [/health] response: the encoding of [healthResponse]
    with its newline (or, were the encoding to fail, the error text as
    [http.Error] prints it).  It depends on the build alone. *)
Definition healthBody : list byte :=
  match json_Marshal healthResponse with
  | inl b => b ++ bytes_of newline
  | inr e => bytes_of (e +:+ newline)
  end.

End Pipeline.

(** ** The server's writer

    The [*response] that net/http hands to the outermost handler, as far as
    the pipeline exercises it: the first [WriteHeader] with a final status
    commits the status together with the header map as it is then; a later
    [WriteHeader] is superfluous and ignored; a [Write] before any
    [WriteHeader] commits status 200 first.

    Body bytes go through the buffers of the response before they reach the
    connection.  [connError] is the error of a connection that can no longer
    be written to, and [room] is the number of body bytes the buffers still
    take before they have to be flushed.  On such a connection a write that
    fits the buffers still returns its full length and no error; a write that
    does not fit reports the error together with the count of the bytes taken
    before the flush failed, and every later write finds no room. *)
Module nethttp.

Record response : Type := mk {
  wroteHeader : bool;
  status : Z;
  sent : HeaderMap;            (* the headers that went out with the status *)
  informational : list Z;      (* 1xx status lines sent before the final one *)
  body : list byte;
  connError : option error;
  room : Z
}.

Definition new : response := mk false 0 ∅ [] [] None 4096.

Definition ErrBodyNotAllowed : error :=
  "http: request method or response status code does not allow body".

(** [checkWriteHeaderCode] panics outside of three-digit codes. *)
Definition validCode (code : Z) : bool := (100 <=? code) && (code <=? 999).

Definition bodyAllowedForStatus (status : Z) : bool :=
  if (100 <=? status) && (status <=? 199) then false
  else if status =? 204 then false
  else if status =? 304 then false
  else true.

Definition WriteHeader (code : Z) (hd : HeaderMap) (w : response) : response * result unit :=
  if wroteHeader w then (w, Ok tt)
  else if negb (validCode code) then
    (w, Panicked (StringValue ("invalid WriteHeader code " +:+ pretty code)))
  else if (100 <=? code) && (code <=? 199) && negb (code =? 101) then
    (mk false (status w) (sent w) (informational w ++ [code]) (body w) (connError w) (room w),
     Ok tt)
  else
    (mk true code hd (informational w) (body w) (connError w) (room w), Ok tt).

Definition Write (b : list byte) (hd : HeaderMap) (w : response)
  : response * result (Z * option error) :=
  match (if wroteHeader w then (w, Ok tt) else WriteHeader 200 hd w) with
  | (w1, Panicked v) => (w1, Panicked v)
  | (w1, Ok _) =>
      if len b =? 0 then (w1, Ok (0, None))
      else if negb (bodyAllowedForStatus (status w1)) then (w1, Ok (0, Some ErrBodyNotAllowed))
      else match connError w1 with
           | Some e =>
               if len b <=? room w1 then
                 (mk (wroteHeader w1) (status w1) (sent w1) (informational w1)
                     (body w1) (connError w1) (room w1 - len b),
                  Ok (len b, None))
               else
                 (mk (wroteHeader w1) (status w1) (sent w1) (informational w1)
                     (body w1) (connError w1) 0,
                  Ok (room w1, Some e))
           | None =>
               (mk (wroteHeader w1) (status w1) (sent w1) (informational w1)
                   (body w1 ++ b) (connError w1) (room w1),
                Ok (len b, None))
           end
  end.

End nethttp.

#[global] Instance nethttp_Transport : Transport nethttp.response := {
  tWriteHeader := nethttp.WriteHeader;
  tWrite := nethttp.Write
}.

(** A concrete build, used to run the pipeline on examples. *)
Definition exampleBuild : Build := {|
  time_Time := string;
  zeroTime := "0001-01-01T00:00:00Z";
  time_Parse := λ s, if decide (s = "") then None else Some s;
  json_Marshal := λ res,
    inl (bytes_of ("{version:" +:+ responseBody.Version res
                   +:+ ",vcs.revision:" +:+ responseBody.Revision res
                   +:+ ",vcs.time:" +:+ responseBody.Time_ res
                   +:+ ",vcs.modified:" +:+ (if responseBody.Modified res then "true" else "false")
                   +:+ "}"));
  runtime_Stack := λ _ _, "goroutine 1 [running]:";
  Version := "v1.0.0";
  buildSettings := [("vcs.revision", "4f2a9c1"); ("vcs.time", "2024-05-01T10:00:00Z");
                    ("vcs.modified", "true"); ("GOOS", "linux")];
  openapi := bytes_of "openapi: 3.0.0"
|}.

(** The world at the start of a request served on a new connection. *)
Definition start : @world nethttp.response := mkWorld [] ∅ nethttp.new [].

Definition exampleRequest : Request := mkRequest "GET" "/health" "" "127.0.0.1:4000".

(** net/http's reply to an unmatched request, standing for the rest of the
    mux in the examples. *)
Definition http_NotFound : @Handler nethttp.response :=
  λ w r, http_Error w "404 page not found" 404.

(** A handler that panics at once. *)
Definition panicking : @Handler nethttp.response :=
  λ w r, panic (StringValue "boom").

(** A handler that abandons the response. *)
Definition aborting : @Handler nethttp.response :=
  λ w r, panic ErrAbortHandler.

(** A handler that sets a status and then panics. *)
Definition statusThenPanic : @Handler nethttp.response :=
  λ w r, WriteHeader w 404;; panic (StringValue "boom").

(** A handler that writes body bytes, without a call of [WriteHeader], and
    then panics. *)
Definition writeThenPanic : @Handler nethttp.response :=
  λ w r, Write w (bytes_of "hi");; panic (StringValue "boom").

(** The start of a request on a connection that has gone away. *)
Definition brokenStart : @world nethttp.response :=
  mkWorld [] ∅ (nethttp.mk false 0 ∅ [] [] (Some "write: broken pipe") 4096) [].

Definition openapiRequest : Request := mkRequest "GET" "/openapi.yaml" "" "127.0.0.1:4001".

(** The calls of a handler that sends a body and leaves the status to the
    server. *)
Definition helloCalls : list call :=
  [DoSet "Content-Type" "text/plain"; DoWrite (bytes_of "hello")].

(** A build stamped twice with a commit time, the second time with a value
    that [time.Parse] refuses. *)
Definition restampedBuild : Build := {|
  time_Time := string;
  zeroTime := "0001-01-01T00:00:00Z";
  time_Parse := λ s, if decide (s = "yesterday") then None else Some s;
  json_Marshal := λ res, inl (bytes_of (responseBody.Version res));
  runtime_Stack := λ _ _, "goroutine 1 [running]:";
  Version := "v1.0.1";
  buildSettings := [("vcs.time", "2024-05-01T10:00:00Z"); ("vcs.time", "yesterday")];
  openapi := bytes_of "openapi: 3.0.0"
|}.

(** A handler that starts the body, leaving the status to the server, and
    then fails. *)
Definition writeThenFail : @Handler nethttp.response :=
  λ w r, Write w (bytes_of "partial");; panic (ErrorValue "db down").

(** A build whose version string and whose document are each larger than
    the buffers of a response: 6000 and 5000 bytes. *)
Definition largeBuild : Build := {|
  time_Time := string;
  zeroTime := "0001-01-01T00:00:00Z";
  time_Parse := λ s, if decide (s = "") then None else Some s;
  json_Marshal := λ res,
    inl (bytes_of ("{version:" +:+ responseBody.Version res
                   +:+ ",vcs.revision:" +:+ responseBody.Revision res
                   +:+ ",vcs.time:" +:+ responseBody.Time_ res
                   +:+ ",vcs.modified:" +:+ (if responseBody.Modified res then "true" else "false")
                   +:+ "}"));
  runtime_Stack := λ _ _, "goroutine 1 [running]:";
  Version := String.string_of_list_ascii (replicate (60 * 100) (Ascii.ascii_of_nat 118));
  buildSettings := [("vcs.revision", "4f2a9c1")];
  openapi := replicate (50 * 100) Byte.x78
|}.

(** * Properties *)

Arguments wrapInt : simpl never.
Arguments len : simpl never.

Section Properties.

Context {T : Type} {TR : Transport T} {B : Build}.

Implicit Types (h : store) (w : wref) (σ : @world T) (r : Request) (next : @Handler T).

(** ** The store *)

Lemma callHeader_Conn h : callHeader h Conn = Ok responseHeader.
Proof. by destruct h. Qed.

Lemma callWriteHeader_Conn h (code : Z) hd (c : T) :
  callWriteHeader h Conn code hd c = (h, (tWriteHeader code hd c).1, (tWriteHeader code hd c).2).
Proof. destruct h; simpl; by destruct (tWriteHeader code hd c). Qed.

Lemma callWrite_Conn h (b : list byte) hd (c : T) :
  callWrite h Conn b hd c = (h, (tWrite b hd c).1, (tWrite b hd c).2).
Proof. destruct h; simpl; by destruct (tWrite b hd c). Qed.

Lemma deref_unallocated h (a : nat) : (length h ≤ a)%nat → deref h a = None.
Proof.
  induction h as [|re h IH]; simpl; intros Hle; [done|].
  destruct (Nat.eqb_spec a (length h)) as [->|_]; [lia|].
  apply IH. lia.
Qed.

Lemma deref_top h (re : responseRecorder) : deref (re :: h) (length h) = Some re.
Proof. simpl. by rewrite Nat.eqb_refl. Qed.

Lemma deref_below h (re : responseRecorder) (a : nat) :
  (a < length h)%nat → deref (re :: h) a = deref h a.
Proof.
  intros Hlt. simpl. destruct (Nat.eqb_spec a (length h)); [lia|done].
Qed.

Lemma callWriteHeader_length h w code hd (c : T) :
  length (callWriteHeader h w code hd c).1.1 = length h.
Proof.
  revert w. induction h as [|re h IH]; intros [|a]; simpl.
  - by destruct (tWriteHeader code hd c).
  - done.
  - by destruct (tWriteHeader code hd c).
  - destruct (a =? length h)%nat.
    + specialize (IH (ResponseWriter re)).
      destruct (callWriteHeader h (ResponseWriter re) code hd c) as [[h' c'] o].
      simpl in *. by rewrite IH.
    + specialize (IH (Rec a)).
      destruct (callWriteHeader h (Rec a) code hd c) as [[h' c'] o].
      simpl in *. by rewrite IH.
Qed.

Lemma callWrite_length h w b hd (c : T) :
  length (callWrite h w b hd c).1.1 = length h.
Proof.
  revert w. induction h as [|re h IH]; intros [|a]; simpl.
  - by destruct (tWrite b hd c).
  - done.
  - by destruct (tWrite b hd c).
  - destruct (a =? length h)%nat.
    + specialize (IH (ResponseWriter re)).
      destruct (callWrite h (ResponseWriter re) b hd c) as [[h' c'] o].
      simpl in *. by rewrite IH.
    + specialize (IH (Rec a)).
      destruct (callWrite h (Rec a) b hd c) as [[h' c'] o].
      simpl in *. by rewrite IH.
Qed.

(** A call on a writer leaves every recorder above that writer as it is. *)
Lemma callWriteHeader_above h w code hd (c : T) (a : nat) :
  (∀ b, w = Rec b → (b < a)%nat) →
  deref (callWriteHeader h w code hd c).1.1 a = deref h a.
Proof.
  revert w. induction h as [|re h IH]; intros w Hw.
  - destruct w; simpl; [by destruct (tWriteHeader code hd c)|done].
  - destruct w as [|b].
    { simpl. by destruct (tWriteHeader code hd c). }
    specialize (Hw b eq_refl). cbn [callWriteHeader].
    destruct (Nat.eqb_spec b (length h)) as [->|Hne].
    + pose proof (callWriteHeader_length h (ResponseWriter re) code hd c) as Hlen.
      destruct (callWriteHeader h (ResponseWriter re) code hd c) as [[h' c'] o].
      simpl in *. rewrite Hlen.
      destruct (Nat.eqb_spec a (length h)); [lia|].
      rewrite !deref_unallocated; [done|lia|lia].
    + pose proof (callWriteHeader_length h (Rec b) code hd c) as Hlen.
      specialize (IH (Rec b)).
      destruct (callWriteHeader h (Rec b) code hd c) as [[h' c'] o].
      simpl in *. rewrite Hlen.
      destruct (a =? length h)%nat; [done|].
      apply IH. intros ? [= <-]. done.
Qed.

Lemma callWrite_above h w bs hd (c : T) (a : nat) :
  (∀ b, w = Rec b → (b < a)%nat) →
  deref (callWrite h w bs hd c).1.1 a = deref h a.
Proof.
  revert w. induction h as [|re h IH]; intros w Hw.
  - destruct w; simpl; [by destruct (tWrite bs hd c)|done].
  - destruct w as [|b].
    { simpl. by destruct (tWrite bs hd c). }
    specialize (Hw b eq_refl). cbn [callWrite].
    destruct (Nat.eqb_spec b (length h)) as [->|Hne].
    + pose proof (callWrite_length h (ResponseWriter re) bs hd c) as Hlen.
      destruct (callWrite h (ResponseWriter re) bs hd c) as [[h' c'] o].
      simpl in *. rewrite Hlen.
      destruct (Nat.eqb_spec a (length h)); [lia|].
      rewrite !deref_unallocated; [done|lia|lia].
    + pose proof (callWrite_length h (Rec b) bs hd c) as Hlen.
      specialize (IH (Rec b)).
      destruct (callWrite h (Rec b) bs hd c) as [[h' c'] o].
      simpl in *. rewrite Hlen.
      destruct (a =? length h)%nat; [done|].
      apply IH. intros ? [= <-]. done.
Qed.

(** ** Frames of the writer operations *)

Lemma keeps_ret {A} (a : nat) (x : A) : keeps (T:=T) a (mret x).
Proof. by intros σ. Qed.

Lemma keeps_bind {A C} (a : nat) (m : @M T A) (k : A → @M T C) :
  keeps a m → (∀ x, keeps a (k x)) → keeps a (m ≫= k).
Proof.
  intros Hm Hk σ. unfold mbind, M_bind, bind.
  destruct (Hm σ) as [Hl Hd]. destruct (m σ) as [σ1 [x|v]]; simpl in *.
  - destruct (Hk x σ1) as [Hl' Hd']. by rewrite Hl', Hd', Hl, Hd.
  - done.
Qed.

Lemma keeps_Header (a : nat) w : keeps (T:=T) a (Header w).
Proof. by intros σ. Qed.

Lemma keeps_Set (a : nat) hr key value : keeps (T:=T) a (Set_ hr key value).
Proof. by intros σ. Qed.

Lemma keeps_Del (a : nat) hr key : keeps (T:=T) a (Del hr key).
Proof. by intros σ. Qed.

Lemma keeps_WriteHeader (a : nat) w code :
  (∀ b, w = Rec b → (b < a)%nat) → keeps a (WriteHeader w code).
Proof.
  intros Hw σ. unfold WriteHeader.
  pose proof (callWriteHeader_above (heap σ) w code (header σ) (conn σ) a Hw) as Hd.
  by destruct (callWriteHeader (heap σ) w code (header σ) (conn σ)) as [[h' c'] o].
Qed.

Lemma keeps_Write (a : nat) w bs :
  (∀ b, w = Rec b → (b < a)%nat) → keeps a (Write w bs).
Proof.
  intros Hw σ. unfold Write.
  pose proof (callWrite_above (heap σ) w bs (header σ) (conn σ) a Hw) as Hd.
  by destruct (callWrite (heap σ) w bs (header σ) (conn σ)) as [[h' c'] o].
Qed.

Lemma keeps_http_Error (a : nat) w msg code :
  (∀ b, w = Rec b → (b < a)%nat) → keeps a (http_Error w msg code).
Proof.
  intros Hw. unfold http_Error.
  apply keeps_bind; [apply keeps_Header|intros hr].
  apply keeps_bind; [apply keeps_Del|intros _].
  apply keeps_bind; [apply keeps_Set|intros _].
  apply keeps_bind; [apply keeps_Set|intros _].
  apply keeps_bind; [by apply keeps_WriteHeader|intros _].
  apply keeps_bind; [by apply keeps_Write|intros _].
  apply keeps_ret.
Qed.

(** Whatever writer it is given, [http.Error] logs nothing. *)
Lemma http_Error_logs w msg code σ : logs (http_Error w msg code σ).1 = logs σ.
Proof.
  unfold http_Error, mbind, M_bind, bind, Header, Del, Set_, WriteHeader, Write, mret, M_ret, ret.
  destruct (callHeader (heap σ) w); simpl; [|done].
  destruct (callWriteHeader _ _ _ _ _) as [[h1 c1] [[]|v1]]; simpl; [|done].
  by destruct (callWrite _ _ _ _ _) as [[h2 c2] [[n e]|v2]].
Qed.

Lemma accessLines_app (l1 l2 : list logRecord) :
  accessLines (l1 ++ l2) = (accessLines l1 + accessLines l2)%nat.
Proof. unfold accessLines. by rewrite filter_app, length_app. Qed.

Lemma accessLines_snoc (ls : list logRecord) (l : logRecord) :
  accessLines (ls ++ [l]) = (accessLines ls + (if isAccessed l then 1 else 0))%nat.
Proof. rewrite accessLines_app. f_equal. by destruct l. Qed.

(** ** The two middlewares, by the outcome of the downstream handler *)

(** [accesslog] when the downstream handler returns: the access line, built
    from the fields of the recorder, is appended. *)
Lemma accesslog_returns next w r σ σ' (re : responseRecorder) :
  next (Rec (length (heap σ))) r (withRecorder w σ) = (σ', Ok tt) →
  deref (heap σ') (length (heap σ)) = Some re →
  accesslog next w r σ =
    (logged (LogAccessed (Method r) (Path r) (RawQuery r) (RemoteAddr r)
                         (status re) (numBytes re)) σ', Ok tt).
Proof.
  intros Hnext Hre.
  unfold accesslog, mbind, M_bind, bind, newRecorder, load, slog.
  fold (withRecorder w σ). by rewrite Hnext, Hre.
Qed.

(** [accesslog] when the downstream handler panics: the statements after the
    call are skipped and the panic goes on to the caller. *)
Lemma accesslog_panics next w r σ σ' (v : any) :
  next (Rec (length (heap σ))) r (withRecorder w σ) = (σ', Panicked v) →
  accesslog next w r σ = (σ', Panicked v).
Proof.
  intros Hnext.
  unfold accesslog, mbind, M_bind, bind, newRecorder.
  fold (withRecorder w σ). by rewrite Hnext.
Qed.

(** [recovery] when the downstream handler returns. *)
Lemma recovery_returns next w r σ σ' :
  next (Rec (length (heap σ))) r (withRecorder w σ) = (σ', Ok tt) →
  recovery next w r σ = (σ', Ok tt).
Proof.
  intros Hnext.
  unfold recovery, mbind, M_bind, bind, newRecorder, deferRecover.
  fold (withRecorder w σ). by rewrite Hnext.
Qed.

(** [recovery] when the downstream handler panics: the deferred function runs
    on the world the handler left. *)
Lemma recovery_panics next w r σ σ' (v : any) :
  next (Rec (length (heap σ))) r (withRecorder w σ) = (σ', Panicked v) →
  recovery next w r σ = recovered w r (length (heap σ)) (Some v) σ'.
Proof.
  intros Hnext.
  unfold recovery, mbind, M_bind, bind, newRecorder, deferRecover.
  fold (withRecorder w σ). by rewrite Hnext.
Qed.

(** The deferred function of [recovery] never adds an access line. *)
Lemma recovered_accessLines w r (a : nat) (v : any) σ :
  accessLines (logs (recovered w r a (Some v) σ).1) = accessLines (logs σ).
Proof.
  unfold recovered. destruct (decide (v = ErrAbortHandler)); [done|].
  unfold mbind, M_bind, bind, slog, load. simpl.
  destruct (deref (heap σ) a) as [re|]; simpl.
  - destruct (decide (status re = 0)); simpl.
    + rewrite http_Error_logs. simpl. rewrite accessLines_snoc. simpl. lia.
    + rewrite accessLines_snoc. simpl. lia.
  - rewrite accessLines_snoc. simpl. lia.
Qed.

(** ** Access logging *)

(** C1 (as amended): through [recovery (accesslog next)], the access line is
    emitted exactly once when the downstream handler returns normally, and
    not at all when it panics: the log statement follows a plain call, so
    the unwinding skips it, and the deferred function of [recovery] adds no
    access line. *)
Theorem access_line_iff_handler_returns next w r σ σ' (out : result unit)
    (re : responseRecorder) :
  next (Rec (S (length (heap σ)))) r
       (withRecorder (Rec (length (heap σ))) (withRecorder w σ)) = (σ', out) →
  deref (heap σ') (S (length (heap σ))) = Some re →
  accessLines (logs (recovery (accesslog next) w r σ).1)
  = (accessLines (logs σ') + match out with Ok _ => 1 | Panicked _ => 0 end)%nat.
Proof.
  intros Hnext Hre. destruct out as [[]|v].
  - rewrite (recovery_returns _ w r σ _
               (accesslog_returns next _ r (withRecorder w σ) σ' re Hnext Hre)).
    simpl. by rewrite accessLines_snoc.
  - rewrite (recovery_panics _ w r σ σ' v
               (accesslog_panics next _ r (withRecorder w σ) σ' v Hnext)).
    rewrite recovered_accessLines. lia.
Qed.

(** ** Panic recovery *)

(** C8: a panic with [http.ErrAbortHandler] is swallowed: [recovery] returns
    normally and leaves the world exactly as the handler left it, so there is
    no log record, no stack trace and no write to any writer. *)
Theorem recovery_swallows_abort next w r σ σ' :
  next (Rec (length (heap σ))) r (withRecorder w σ) = (σ', Panicked ErrAbortHandler) →
  recovery next w r σ = (σ', Ok tt).
Proof.
  intros Hnext. rewrite (recovery_panics next w r σ σ' _ Hnext).
  unfold recovered. by rewrite decide_True.
Qed.

(** [recovery] after a panic other than the sentinel, by the status its
    recorder shows. *)
Lemma recovery_panics_logged next w r σ σ' (v : any) (re : responseRecorder) :
  next (Rec (length (heap σ))) r (withRecorder w σ) = (σ', Panicked v) →
  v ≠ ErrAbortHandler →
  deref (heap σ') (length (heap σ)) = Some re →
  recovery next w r σ =
    if decide (status re = 0) then http_Error w (Sprint v) 500 (panicLogged v r σ')
    else (panicLogged v r σ', Ok tt).
Proof.
  intros Hnext Hv Hre. rewrite (recovery_panics next w r σ σ' v Hnext).
  unfold recovered. rewrite decide_False by done.
  unfold mbind, M_bind, bind, slog, load. simpl. rewrite Hre.
  by destruct (decide (status re = 0)).
Qed.

(** After a panic other than the sentinel, [recovery] logs it and then, if
    its recorder shows status 0, sends [http.Error] with code 500 and the
    string form of the panic value to the original writer; if the recorder
    shows a status, the world is the logged one: nothing is written and no
    recorder changes. *)
Theorem recovery_panic_response next w r σ σ' (v : any) (re : responseRecorder) :
  next (Rec (length (heap σ))) r (withRecorder w σ) = (σ', Panicked v) →
  v ≠ ErrAbortHandler →
  deref (heap σ') (length (heap σ)) = Some re →
  (status re = 0 →
     recovery next w r σ = http_Error w (Sprint v) 500 (panicLogged v r σ'))
  ∧ (status re ≠ 0 →
     recovery next w r σ = (panicLogged v r σ', Ok tt)).
Proof.
  intros Hnext Hv Hre. rewrite (recovery_panics_logged next w r σ σ' v re Hnext Hv Hre).
  split; intros Hs.
  - by rewrite decide_True.
  - by rewrite decide_False.
Qed.

(** C10: the fallback 500 goes to the original writer [w], not to the
    recorder of [recovery]: after it, that recorder is the one the handler
    left, with status 0 and the byte count without the 500 body. *)
Theorem recovery_fallback_keeps_recorder next w r σ σ' (v : any) (re : responseRecorder) :
  allocated (heap σ) w →
  next (Rec (length (heap σ))) r (withRecorder w σ) = (σ', Panicked v) →
  v ≠ ErrAbortHandler →
  deref (heap σ') (length (heap σ)) = Some re →
  status re = 0 →
  recovery next w r σ = http_Error w (Sprint v) 500 (panicLogged v r σ')
  ∧ deref (heap (recovery next w r σ).1) (length (heap σ)) = Some re.
Proof.
  intros Hw Hnext Hv Hre Hs.
  rewrite (recovery_panics_logged next w r σ σ' v re Hnext Hv Hre).
  rewrite decide_True by done. split; [done|].
  assert (Hbelow : ∀ b, w = Rec b → (b < length (heap σ))%nat).
  { intros b ->. exact Hw. }
  destruct (keeps_http_Error (length (heap σ)) w (Sprint v) 500 Hbelow (panicLogged v r σ'))
    as [_ Hd].
  by rewrite Hd.
Qed.

(** ** The recorder *)

Lemma wrapInt_small (z : Z) : - 2 ^ 63 ≤ z ≤ maxInt → wrapInt z = z.
Proof. unfold wrapInt, maxInt. intros Hz. rewrite Z.mod_small; lia. Qed.

Lemma wrapInt_add_l (x y : Z) : wrapInt (wrapInt x + y) = wrapInt (x + y).
Proof.
  unfold wrapInt. f_equal.
  replace ((x + 2 ^ 63) `mod` 2 ^ 64 - 2 ^ 63 + y + 2 ^ 63)
    with ((x + 2 ^ 63) `mod` 2 ^ 64 + y) by lia.
  rewrite Zplus_mod_idemp_l. f_equal. lia.
Qed.

Lemma bytesPassed_nonneg (cs : list call) : 0 ≤ bytesPassed cs.
Proof. induction cs as [|[b| |] cs IH]; simpl; unfold len in *; lia. Qed.

(** One [Write] on a recorder: the count grows by [len(b)] whatever the
    embedded writer does with the bytes, and the outcome of the call is the
    outcome of the embedded writer's [Write]. *)
Lemma Write_recorder (re : responseRecorder) σ (b : list byte) :
  Write (Rec (length (heap σ))) b (onTop re σ) =
    (onTop (mkRecorder (ResponseWriter re) (status re) (wrapInt (numBytes re + len b)))
           (Write (ResponseWriter re) b σ).1,
     (Write (ResponseWriter re) b σ).2).
Proof.
  unfold Write, onTop. simpl. rewrite Nat.eqb_refl.
  by destruct (callWrite (heap σ) (ResponseWriter re) b (header σ) (conn σ)) as [[h' c'] o].
Qed.

(** One [WriteHeader] on a recorder: the status becomes the code of this
    call, whatever it was, and the call goes on to the embedded writer. *)
Lemma WriteHeader_recorder (re : responseRecorder) σ (code : Z) :
  WriteHeader (Rec (length (heap σ))) code (onTop re σ) =
    (onTop (mkRecorder (ResponseWriter re) code (numBytes re))
           (WriteHeader (ResponseWriter re) code σ).1,
     (WriteHeader (ResponseWriter re) code σ).2).
Proof.
  unfold WriteHeader, onTop. simpl. rewrite Nat.eqb_refl.
  by destruct (callWriteHeader (heap σ) (ResponseWriter re) code (header σ) (conn σ))
    as [[h' c'] o].
Qed.

(** [Header] on a recorder is [Header] on the embedded writer. *)
Lemma Header_recorder (re : responseRecorder) σ :
  Header (Rec (length (heap σ))) (onTop re σ) = (onTop re σ, (Header (ResponseWriter re) σ).2).
Proof. unfold Header, onTop. simpl. by rewrite Nat.eqb_refl. Qed.

Lemma Write_heap_length w (b : list byte) σ : length (heap (Write w b σ).1) = length (heap σ).
Proof.
  unfold Write. pose proof (callWrite_length (heap σ) w b (header σ) (conn σ)) as Hl.
  by destruct (callWrite (heap σ) w b (header σ) (conn σ)) as [[h' c'] o].
Qed.

Lemma WriteHeader_heap_length w (code : Z) σ :
  length (heap (WriteHeader w code σ).1) = length (heap σ).
Proof.
  unfold WriteHeader.
  pose proof (callWriteHeader_length (heap σ) w code (header σ) (conn σ)) as Hl.
  by destruct (callWriteHeader (heap σ) w code (header σ) (conn σ)) as [[h' c'] o].
Qed.

Lemma doCall_heap_length w (c : call) σ : length (heap (doCall w c σ).1) = length (heap σ).
Proof.
  destruct c as [b|code|key value]; simpl.
  - pose proof (Write_heap_length w b σ). by destruct (Write w b σ).
  - pose proof (WriteHeader_heap_length w code σ). by destruct (WriteHeader w code σ).
  - unfold mbind, M_bind, bind, Header, Set_. by destruct (callHeader (heap σ) w).
Qed.

Lemma callEach_heap_length w (cs : list call) σ :
  length (heap (callEach w cs σ).1) = length (heap σ).
Proof.
  revert σ. induction cs as [|c cs IH]; intros σ; simpl; [done|].
  pose proof (doCall_heap_length w c σ) as Hl.
  destruct (doCall w c σ) as [σ1 o]. specialize (IH σ1).
  destruct (callEach w cs σ1) as [σ2 os]. simpl in *. congruence.
Qed.

(** One call on a recorder is the same call on the embedded writer, plus what
    the recorder keeps of it. *)
Lemma doCall_recorder (re : responseRecorder) σ (c : call) :
  doCall (Rec (length (heap σ))) c (onTop re σ) =
    (onTop (recorded re c) (doCall (ResponseWriter re) c σ).1,
     (doCall (ResponseWriter re) c σ).2).
Proof.
  destruct c as [b|code|key value]; simpl.
  - rewrite Write_recorder. by destruct (Write (ResponseWriter re) b σ).
  - rewrite WriteHeader_recorder. by destruct (WriteHeader (ResponseWriter re) code σ).
  - unfold mbind, M_bind, bind. rewrite Header_recorder.
    unfold Header. simpl. by destruct (callHeader (heap σ) (ResponseWriter re)).
Qed.

(** A sequence of calls on a recorder is the same sequence on the embedded
    writer, plus what the recorder keeps of each call. *)
Lemma callEach_recorder (cs : list call) (re : responseRecorder) σ :
  callEach (Rec (length (heap σ))) cs (onTop re σ) =
    (onTop (foldl recorded re cs) (callEach (ResponseWriter re) cs σ).1,
     (callEach (ResponseWriter re) cs σ).2).
Proof.
  revert re σ. induction cs as [|c cs IH]; intros re σ; simpl; [done|].
  rewrite doCall_recorder.
  pose proof (doCall_heap_length (ResponseWriter re) c σ) as Hl.
  destruct (doCall (ResponseWriter re) c σ) as [σ1 o]. simpl in *.
  rewrite <- Hl. rewrite IH.
  assert (Hw : ResponseWriter (recorded re c) = ResponseWriter re) by (by destruct c).
  rewrite Hw. by destruct (callEach (ResponseWriter re) cs σ1) as [σ2 os].
Qed.

(** The fields of a recorder after a sequence of calls: the code of the last
    [WriteHeader] call (or the status it had) and the sum of the lengths
    written, as an [int]. *)
Lemma foldl_recorded (cs : list call) w (st n : Z) :
  foldl recorded (mkRecorder w st (wrapInt n)) cs
  = mkRecorder w (default st (lastCode cs)) (wrapInt (n + bytesPassed cs)).
Proof.
  revert st n. induction cs as [|c cs IH]; intros st n; simpl.
  - by rewrite Z.add_0_r.
  - destruct c as [b|code|key value]; simpl.
    + rewrite wrapInt_add_l, IH. destruct (lastCode cs); simpl; do 2 f_equal; lia.
    + rewrite IH. by destruct (lastCode cs).
    + rewrite IH. by destruct (lastCode cs).
Qed.

(** A recorder created around [w] is transparent for [w] and ends with the
    last code and the byte total of the calls made on it. *)
Lemma recorder_after_calls w σ (cs : list call) :
  callEach (Rec (length (heap σ))) cs (withRecorder w σ) =
    (onTop (mkRecorder w (default 0 (lastCode cs)) (wrapInt (bytesPassed cs)))
           (callEach w cs σ).1,
     (callEach w cs σ).2).
Proof.
  change (withRecorder w σ) with (onTop (mkRecorder w 0 0) σ).
  rewrite callEach_recorder. simpl.
  replace (mkRecorder w 0 0) with (mkRecorder w 0 (wrapInt 0)) by done.
  by rewrite foldl_recorded.
Qed.

Lemma lastCode_Some (cs : list call) (code : Z) :
  lastCode cs = Some code → DoWriteHeader code ∈ cs.
Proof.
  induction cs as [|c cs IH]; simpl; [done|].
  destruct (lastCode cs) as [code'|].
  - intros [= <-]. right. by apply IH.
  - destruct c; try done. intros [= <-]. left.
Qed.

Lemma lastCode_None (cs : list call) (code : Z) :
  lastCode cs = None → DoWriteHeader code ∉ cs.
Proof.
  induction cs as [|c cs IH]; simpl; [intros _; apply not_elem_of_nil|].
  destruct (lastCode cs) as [code'|]; [done|].
  destruct c; try done; intros _; apply not_elem_of_cons; split; try done; by apply IH.
Qed.

(** The recorder of [accesslog] embeds the recorder of [recovery], so every
    call made on the former reaches the latter: after any sequence of calls
    both show the code of the last [WriteHeader] call and the same count. *)
Lemma calls_reach_recovery_recorder w σ (cs : list call) :
  callEach (Rec (S (length (heap σ)))) cs
           (withRecorder (Rec (length (heap σ))) (withRecorder w σ)) =
    (onTop (mkRecorder (Rec (length (heap σ))) (default 0 (lastCode cs))
                       (wrapInt (bytesPassed cs)))
       (onTop (mkRecorder w (default 0 (lastCode cs)) (wrapInt (bytesPassed cs)))
              (callEach w cs σ).1),
     (callEach w cs σ).2).
Proof.
  pose proof (recorder_after_calls (Rec (length (heap σ))) (withRecorder w σ) cs) as Hout.
  simpl in Hout. rewrite Hout. by rewrite recorder_after_calls.
Qed.

(** X3: With codes other than 0, the recorder of [recovery] shows a status
    exactly when the handler called [WriteHeader]. *)
Lemma recovery_status_nonzero_iff_called w σ (cs : list call) :
  (∀ code, DoWriteHeader code ∈ cs → code ≠ 0) →
  ∃ re, deref (heap (callEach (Rec (S (length (heap σ)))) cs
                       (withRecorder (Rec (length (heap σ))) (withRecorder w σ))).1)
              (length (heap σ)) = Some re
        ∧ (status re ≠ 0 ↔ ∃ code, DoWriteHeader code ∈ cs).
Proof.
  intros Hcodes. rewrite calls_reach_recovery_recorder. simpl.
  rewrite callEach_heap_length.
  destruct (Nat.eqb_spec (length (heap σ)) (S (length (heap σ)))); [lia|].
  rewrite Nat.eqb_refl. eexists. split; [done|]. simpl.
  destruct (lastCode cs) as [code|] eqn:Hlast; simpl.
  - apply lastCode_Some in Hlast. split; [by exists code|]. intros _. by apply Hcodes.
  - split; [done|]. intros [code Hin]. by apply (lastCode_None cs code) in Hin.
Qed.

(** C3: for a recorder created around [w] and any sequence of calls on it
    whose [Write] lengths add up to an [int], every call returns what the
    same call on [w] returns (so each [Write] returns the count and the error
    of the embedded writer's [Write]), and the recorder ends with the exact
    sum of the lengths as its byte count, whatever those calls returned. *)
Theorem recorder_counts_bytes w σ (cs : list call) :
  bytesPassed cs ≤ maxInt →
  (callEach (Rec (length (heap σ))) cs (withRecorder w σ)).2 = (callEach w cs σ).2
  ∧ numBytes <$> deref (heap (callEach (Rec (length (heap σ))) cs (withRecorder w σ)).1)
                       (length (heap σ))
    = Some (bytesPassed cs).
Proof.
  intros Hfit. rewrite recorder_after_calls. simpl. split; [done|].
  rewrite callEach_heap_length, Nat.eqb_refl. simpl.
  rewrite wrapInt_small; [done|].
  pose proof (bytesPassed_nonneg cs). lia.
Qed.

(** C4 (as amended): the status of a recorder is the code of the most recent
    [WriteHeader] call on it, 0 before the first; every call overwrites what
    was recorded, and the embedded writer receives the same calls. *)
Theorem recorder_status_is_last_code w σ (cs : list call) :
  (callEach (Rec (length (heap σ))) cs (withRecorder w σ)).2 = (callEach w cs σ).2
  ∧ status <$> deref (heap (callEach (Rec (length (heap σ))) cs (withRecorder w σ)).1)
                     (length (heap σ))
    = Some (default 0 (lastCode cs)).
Proof.
  rewrite recorder_after_calls. simpl. split; [done|].
  by rewrite callEach_heap_length, Nat.eqb_refl.
Qed.

(** ** What a recorder adds to a writer, and what the chain of [route] logs *)

(** The calls of a handler body that returned are the calls of [callEach]. *)
Lemma perform_callEach w (cs : list call) σ σ' :
  perform w cs σ = (σ', Ok tt) → σ' = (callEach w cs σ).1.
Proof.
  revert σ. induction cs as [|c cs IH]; intros σ; simpl.
  - by intros [= <-].
  - destruct c as [b|code|key value]; unfold mbind, M_bind, bind; simpl.
    + destruct (Write w b σ) as [σ1 [x|v]]; [|done].
      intros Hrun. apply IH in Hrun. by destruct (callEach w cs σ1).
    + destruct (WriteHeader w code σ) as [σ1 [x|v]]; [|done].
      intros Hrun. apply IH in Hrun. by destruct (callEach w cs σ1).
    + unfold mbind, M_bind, bind, Header, Set_. simpl.
      destruct (callHeader (heap σ) w) as [x|v]; [|done]. simpl.
      intros Hrun. apply IH in Hrun.
      by destruct (callEach w cs _).
Qed.

(** X1: [Header], [Write] and [WriteHeader] of a recorder delegate to the writer
    it embeds and change nothing else: for a recorder created around [w] and
    any sequence of calls made through it, the writer below, the header map,
    the log and the older recorders end exactly as if the calls had been made
    on [w], and every call returns what it returns on [w]. *)
Theorem recorder_is_transparent w σ (cs : list call) :
  (callEach (Rec (length (heap σ))) cs (withRecorder w σ)).2 = (callEach w cs σ).2
  ∧ conn (callEach (Rec (length (heap σ))) cs (withRecorder w σ)).1
    = conn (callEach w cs σ).1
  ∧ header (callEach (Rec (length (heap σ))) cs (withRecorder w σ)).1
    = header (callEach w cs σ).1
  ∧ logs (callEach (Rec (length (heap σ))) cs (withRecorder w σ)).1
    = logs (callEach w cs σ).1
  ∧ tail (heap (callEach (Rec (length (heap σ))) cs (withRecorder w σ)).1)
    = heap (callEach w cs σ).1.
Proof. by rewrite recorder_after_calls. Qed.

(** X2: The recorder of [accesslog] and the recorder of [recovery] below it
    always agree: after any sequence of calls made by the handler both hold
    the same status and the same byte count. *)
Theorem chain_recorders_agree w σ (cs : list call) :
  ∃ st n : Z,
    deref (heap (callEach (Rec (S (length (heap σ)))) cs
                   (withRecorder (Rec (length (heap σ))) (withRecorder w σ))).1)
          (S (length (heap σ)))
    = Some (mkRecorder (Rec (length (heap σ))) st n)
    ∧ deref (heap (callEach (Rec (S (length (heap σ)))) cs
                     (withRecorder (Rec (length (heap σ))) (withRecorder w σ))).1)
            (length (heap σ))
      = Some (mkRecorder w st n).
Proof.
  exists (default 0 (lastCode cs)), (wrapInt (bytesPassed cs)).
  rewrite calls_reach_recovery_recorder. simpl.
  rewrite callEach_heap_length, !Nat.eqb_refl.
  destruct (Nat.eqb_spec (length (heap σ)) (S (length (heap σ)))); [lia|done].
Qed.

(** X4: The access line of a handler body that returns: its status is the code
    of the last [WriteHeader] call the handler made, 0 if it made none, and
    its byte count is the sum of the lengths the handler passed to [Write]. *)
Theorem access_line_reports_calls w r σ σ' (cs : list call) :
  perform (Rec (length (heap σ))) cs (withRecorder w σ) = (σ', Ok tt) →
  bytesPassed cs ≤ maxInt →
  accesslog (λ w' _, perform w' cs) w r σ
  = (logged (LogAccessed (Method r) (Path r) (RawQuery r) (RemoteAddr r)
                         (default 0 (lastCode cs)) (bytesPassed cs)) σ',
     Ok tt).
Proof.
  intros Hrun Hfit.
  apply (accesslog_returns (λ w' _, perform w' cs) w r σ σ'
           (mkRecorder w (default 0 (lastCode cs)) (bytesPassed cs)) Hrun).
  rewrite (perform_callEach _ _ _ _ Hrun), recorder_after_calls. simpl.
  rewrite callEach_heap_length, Nat.eqb_refl, wrapInt_small; [done|].
  pose proof (bytesPassed_nonneg cs). lia.
Qed.

(** The log after [recovery] has caught a panic other than the sentinel. *)
Lemma recovery_panic_logs next w r σ σ' (v : any) :
  next (Rec (length (heap σ))) r (withRecorder w σ) = (σ', Panicked v) →
  v ≠ ErrAbortHandler →
  logs (recovery next w r σ).1
  = logs σ' ++ [LogPanic v (runtime_Stack 1024 true)
                         (Method r) (Path r) (RawQuery r) (RemoteAddr r)].
Proof.
  intros Hnext Hv. rewrite (recovery_panics next w r σ σ' v Hnext).
  unfold recovered. rewrite decide_False by done.
  unfold mbind, M_bind, bind, slog, load. simpl.
  destruct (deref (heap σ') (length (heap σ))) as [re|]; [|done].
  destruct (decide (status re = 0)); [|done].
  by rewrite http_Error_logs.
Qed.

Lemma panicLines_snoc (ls : list logRecord) (l : logRecord) :
  panicLines (ls ++ [l]) = (panicLines ls + (if isPanicLog l then 1 else 0))%nat.
Proof.
  unfold panicLines. rewrite filter_app, length_app. f_equal. by destruct l.
Qed.

(** X5: a panic other than the sentinel leaves exactly one ["panic!"] record,
    at the end of the log, with the panic value and the method, path, query
    and address of the request, and no access line, whether or not the
    fallback response is sent. *)
Theorem panic_is_logged_once next w r σ σ' (v : any) :
  next (Rec (length (heap σ))) r (withRecorder w σ) = (σ', Panicked v) →
  v ≠ ErrAbortHandler →
  logs (recovery next w r σ).1
  = logs σ' ++ [LogPanic v (runtime_Stack 1024 true)
                         (Method r) (Path r) (RawQuery r) (RemoteAddr r)]
  ∧ panicLines (logs (recovery next w r σ).1) = S (panicLines (logs σ'))
  ∧ accessLines (logs (recovery next w r σ).1) = accessLines (logs σ').
Proof.
  intros Hnext Hv.
  rewrite (recovery_panic_logs next w r σ σ' v Hnext Hv).
  rewrite panicLines_snoc, accessLines_snoc. simpl. repeat split; lia.
Qed.

(** X6: [recovery] is silent for the sentinel only: after a panic it returns
    with the world the handler left exactly when the panic value is
    [http.ErrAbortHandler] itself; any other value, an error with the same
    text included, is not swallowed. *)
Theorem recovery_silent_only_for_abort next w r σ σ' (v : any) :
  next (Rec (length (heap σ))) r (withRecorder w σ) = (σ', Panicked v) →
  recovery next w r σ = (σ', Ok tt) ↔ v = ErrAbortHandler.
Proof.
  intros Hnext. split.
  - intros Hsilent. destruct (decide (v = ErrAbortHandler)) as [|Hv]; [done|].
    pose proof (recovery_panic_logs next w r σ σ' v Hnext Hv) as Hlogs.
    rewrite Hsilent in Hlogs. simpl in Hlogs.
    apply (f_equal length) in Hlogs. rewrite length_app in Hlogs. simpl in Hlogs. lia.
  - intros ->. rewrite (recovery_panics next w r σ σ' _ Hnext).
    unfold recovered. by rewrite decide_True.
Qed.

End Properties.

(** ** The two endpoints on the server's writer *)

Section Endpoints.

Context {B : Build}.

Implicit Types (h : store) (σ : @world nethttp.response) (r : Request)
  (muxRest : @Handler nethttp.response).

Lemma mux_health muxRest w r :
  Method r = "GET" → Path r = "/health" → mux muxRest w r = handleGetHealth w r.
Proof. intros Hm Hp. unfold mux. by rewrite decide_True. Qed.

Lemma mux_openapi muxRest w r :
  Method r = "GET" → Path r = "/openapi.yaml" → mux muxRest w r = handleGetOpenapi w r.
Proof.
  intros Hm Hp. unfold mux.
  rewrite decide_False by (rewrite Hp; by intros [_ [=]]).
  by rewrite decide_True.
Qed.

Lemma Header_Get_Set (key value : string) (hd : HeaderMap) :
  Header_Get key (Header_Set key value hd) = value.
Proof. unfold Header_Get, Header_Set. by rewrite lookup_insert_eq. Qed.

Lemma Header_Get_Set_ne (key key' value : string) (hd : HeaderMap) :
  key ≠ key' → Header_Get key (Header_Set key' value hd) = Header_Get key hd.
Proof. intros Hne. unfold Header_Get, Header_Set. by rewrite lookup_insert_ne. Qed.

Lemma len_zero (b : list byte) : (len b =? 0) = true → b = [].
Proof. intros Hl%Z.eqb_eq. unfold len in Hl. destruct b; [done|simpl in Hl; lia]. Qed.

Lemma len_line (e : string) : (len (bytes_of (e +:+ newline)) =? 0) = false.
Proof. apply Z.eqb_neq. unfold len. by destruct e. Qed.

Lemma len_json_line (b : list byte) : (len (b ++ bytes_of newline) =? 0) = false.
Proof. apply Z.eqb_neq. unfold len. rewrite length_app. simpl. lia. Qed.

Ltac run :=
  repeat (progress (simpl;
    rewrite ?Nat.eqb_refl, ?callHeader_Conn, ?callWriteHeader_Conn, ?callWrite_Conn)).

(** [http.Error] on the server's writer before anything was committed: the
    response gets the code, the plain-text content type and the text with its
    newline. *)
Lemma http_Error_on_unwritten_response (msg : string) (code : Z) σ :
  nethttp.wroteHeader (conn σ) = false →
  nethttp.connError (conn σ) = None →
  200 ≤ code ≤ 999 →
  nethttp.bodyAllowedForStatus code = true →
  (http_Error Conn msg code σ).2 = Ok tt
  ∧ nethttp.status (conn (http_Error Conn msg code σ).1) = code
  ∧ Header_Get "Content-Type" (nethttp.sent (conn (http_Error Conn msg code σ).1))
    = "text/plain; charset=utf-8"
  ∧ nethttp.body (conn (http_Error Conn msg code σ).1)
    = nethttp.body (conn σ) ++ bytes_of (msg +:+ newline).
Proof.
  intros Hw He Hcode Hbody. destruct σ as [h hd [wrote st snt inf bd ce rm] ls].
  simpl in Hw, He. subst wrote ce.
  unfold http_Error, mbind, M_bind, bind, Header, Set_, Del, WriteHeader, Write,
    mret, M_ret, ret.
  run. unfold nethttp.WriteHeader, nethttp.validCode. simpl.
  replace (100 <=? code) with true by (symmetry; apply Z.leb_le; lia).
  replace (code <=? 999) with true by (symmetry; apply Z.leb_le; lia).
  replace (code <=? 199) with false by (symmetry; apply Z.leb_gt; lia).
  simpl. unfold nethttp.Write. simpl. rewrite len_line, Hbody. simpl.
  repeat split.
  by rewrite Header_Get_Set_ne, Header_Get_Set.
Qed.

(** [http.Error] on the server's writer after a status was committed: the
    status and the headers that went out stay, the text is appended. *)
Lemma http_Error_on_committed_response (msg : string) (code : Z) σ :
  nethttp.wroteHeader (conn σ) = true →
  nethttp.status (conn (http_Error Conn msg code σ).1) = nethttp.status (conn σ)
  ∧ nethttp.sent (conn (http_Error Conn msg code σ).1) = nethttp.sent (conn σ).
Proof.
  intros Hw. destruct σ as [h hd [wrote st snt inf bd ce rm] ls].
  simpl in Hw. subst wrote.
  unfold http_Error, mbind, M_bind, bind, Header, Set_, Del, WriteHeader, Write,
    mret, M_ret, ret.
  run. unfold nethttp.Write. simpl. rewrite len_line.
  destruct (nethttp.bodyAllowedForStatus st); simpl; [|done].
  destruct ce; [|done]. by destruct (_ <=? rm).
Qed.

(** [handleGetOpenapi] under the two recorders of [route], on a new response. *)
Lemma handleGetOpenapi_chain h hd ls r :
  handleGetOpenapi (Rec (S (length h))) r
    (mkWorld (mkRecorder (Rec (length h)) 0 0 :: mkRecorder Conn 0 0 :: h) hd nethttp.new ls)
  = let hd' := Header_Set "Access-Control-Allow-Origin" "*"
                 (Header_Set "Content-Type" "text/plain" hd) in
    (mkWorld (mkRecorder (Rec (length h)) 200 (wrapInt (0 + len openapi))
              :: mkRecorder Conn 200 (wrapInt (0 + len openapi)) :: h)
             hd' (nethttp.mk true 200 hd' [] openapi None (nethttp.room nethttp.new)) ls,
     Ok tt).
Proof.
  unfold handleGetOpenapi, mbind, M_bind, bind, Header, Set_, WriteHeader, Write, slog.
  run. unfold nethttp.Write. simpl.
  destruct (len openapi =? 0) eqn:Hl; [|done].
  by rewrite (len_zero _ Hl).
Qed.

(** C6: a GET of [/openapi.yaml] on a new response gets status 200, content
    type [text/plain], [Access-Control-Allow-Origin: *] and the embedded
    bytes as the body. *)
Theorem openapi_response muxRest r σ :
  Method r = "GET" → Path r = "/openapi.yaml" →
  conn σ = nethttp.new →
  (route muxRest Conn r σ).2 = Ok tt
  ∧ nethttp.status (conn (route muxRest Conn r σ).1) = 200
  ∧ Header_Get "Content-Type" (nethttp.sent (conn (route muxRest Conn r σ).1)) = "text/plain"
  ∧ Header_Get "Access-Control-Allow-Origin" (nethttp.sent (conn (route muxRest Conn r σ).1)) = "*"
  ∧ nethttp.body (conn (route muxRest Conn r σ).1) = openapi.
Proof.
  intros Hm Hp Hc. destruct σ as [h hd c ls]. simpl in Hc. subst c.
  unfold route.
  erewrite recovery_returns; last first.
  { eapply accesslog_returns.
    - rewrite (mux_openapi _ _ _ Hm Hp). apply handleGetOpenapi_chain.
    - simpl. by rewrite Nat.eqb_refl. }
  simpl. repeat split.
  - by rewrite Header_Get_Set_ne, Header_Get_Set.
  - by rewrite Header_Get_Set.
Qed.

(** [handleGetHealth] under the two recorders of [route], on a new response:
    the status and the headers are committed before the encoding, so the
    response is the same 200 either way. *)
Lemma handleGetHealth_chain h hd ls r :
  ∃ (st n : Z) (hd' : HeaderMap),
    handleGetHealth (Rec (S (length h))) r
      (mkWorld (mkRecorder (Rec (length h)) 0 0 :: mkRecorder Conn 0 0 :: h) hd nethttp.new ls)
    = (mkWorld (mkRecorder (Rec (length h)) st n :: mkRecorder Conn st n :: h) hd'
               (nethttp.mk true 200 (Header_Set "Content-Type" "application/json" hd) []
                           healthBody None (nethttp.room nethttp.new)) ls,
       Ok tt).
Proof.
  unfold handleGetHealth, json_Encode, healthBody.
  destruct (json_Marshal healthResponse) as [b|e].
  - eexists _, _, _.
    unfold mbind, M_bind, bind, Header, Set_, WriteHeader, Write, mret, M_ret, ret.
    run. unfold nethttp.Write. simpl. rewrite len_json_line. simpl. reflexivity.
  - eexists _, _, _.
    unfold http_Error, mbind, M_bind, bind, Header, Set_, Del, WriteHeader, Write,
      mret, M_ret, ret.
    run. unfold nethttp.Write. simpl. rewrite len_line. simpl. reflexivity.
Qed.

(** One GET of [/health] on a new response. *)
Lemma health_response_once muxRest r σ :
  Method r = "GET" → Path r = "/health" → conn σ = nethttp.new →
  nethttp.status (conn (route muxRest Conn r σ).1) = 200
  ∧ Header_Get "Content-Type" (nethttp.sent (conn (route muxRest Conn r σ).1))
    = "application/json"
  ∧ nethttp.body (conn (route muxRest Conn r σ).1) = healthBody.
Proof.
  intros Hm Hp Hc. destruct σ as [h hd c ls]. simpl in Hc. subst c.
  destruct (handleGetHealth_chain h hd ls r) as (st & n & hd' & Hrun).
  unfold route.
  erewrite recovery_returns; last first.
  { eapply accesslog_returns.
    - rewrite (mux_health _ _ _ Hm Hp). apply Hrun.
    - simpl. by rewrite Nat.eqb_refl. }
  simpl. by rewrite Header_Get_Set.
Qed.

(** C5: any two GETs of [/health], each on a new response, get status 200,
    content type [application/json] and the same body, [healthBody], which is
    fixed by the build and is the JSON encoding of [healthResponse] followed
    by a newline. *)
Theorem health_response_fixed muxRest r1 r2 σ1 σ2 :
  Method r1 = "GET" → Path r1 = "/health" →
  Method r2 = "GET" → Path r2 = "/health" →
  conn σ1 = nethttp.new → conn σ2 = nethttp.new →
  (nethttp.status (conn (route muxRest Conn r1 σ1).1) = 200
   ∧ nethttp.status (conn (route muxRest Conn r2 σ2).1) = 200)
  ∧ (Header_Get "Content-Type" (nethttp.sent (conn (route muxRest Conn r1 σ1).1))
     = "application/json"
     ∧ Header_Get "Content-Type" (nethttp.sent (conn (route muxRest Conn r2 σ2).1))
       = "application/json")
  ∧ nethttp.body (conn (route muxRest Conn r1 σ1).1) = healthBody
  ∧ nethttp.body (conn (route muxRest Conn r2 σ2).1) = healthBody
  ∧ (∀ b, json_Marshal healthResponse = inl b → healthBody = b ++ bytes_of newline).
Proof.
  intros Hm1 Hp1 Hm2 Hp2 Hc1 Hc2.
  destruct (health_response_once muxRest r1 σ1 Hm1 Hp1 Hc1) as (? & ? & ?).
  destruct (health_response_once muxRest r2 σ2 Hm2 Hp2 Hc2) as (? & ? & ?).
  repeat split; try done.
  intros b Hb. unfold healthBody. by rewrite Hb.
Qed.

(** Were the encoding of [healthResponse] to fail with [e], the response
    would still carry the status 200 committed before the encoding, with the
    text of [e] as its body. *)
Lemma health_encoding_error_is_200 muxRest r σ (e : error) :
  json_Marshal healthResponse = inr e →
  Method r = "GET" → Path r = "/health" → conn σ = nethttp.new →
  nethttp.status (conn (route muxRest Conn r σ).1) = 200
  ∧ nethttp.body (conn (route muxRest Conn r σ).1) = bytes_of (e +:+ newline).
Proof.
  intros He Hm Hp Hc.
  destruct (health_response_once muxRest r σ Hm Hp Hc) as (Hs & _ & Hb).
  split; [done|]. rewrite Hb. unfold healthBody. by rewrite He.
Qed.

(** ** More on the chain of [route] over the server's writer *)

(** On the server's writer [http.Error] with a three-digit code returns. *)
Lemma http_Error_returns (msg : string) (code : Z) σ :
  nethttp.validCode code = true → (http_Error Conn msg code σ).2 = Ok tt.
Proof.
  intros Hcode. destruct σ as [h hd [wrote st snt inf bd ce rm] ls].
  unfold http_Error, mbind, M_bind, bind, Header, Set_, Del, WriteHeader, Write,
    mret, M_ret, ret.
  run. unfold nethttp.WriteHeader. simpl. rewrite Hcode. simpl.
  destruct wrote; simpl.
  - unfold nethttp.Write. simpl. rewrite len_line.
    destruct (nethttp.bodyAllowedForStatus st); simpl; [|done].
    destruct ce; [|done]. by destruct (_ <=? rm).
  - destruct ((100 <=? code) && (code <=? 199) && negb (code =? 101)); simpl.
    + unfold nethttp.Write, nethttp.WriteHeader. simpl. rewrite len_line. simpl.
      destruct ce; [|done]. by destruct (_ <=? rm).
    + unfold nethttp.Write. simpl. rewrite len_line.
      destruct (nethttp.bodyAllowedForStatus code); simpl; [|done].
      destruct ce; [|done]. by destruct (_ <=? rm).
Qed.

(** X7: [recovery] contains every panic: over the server's writer it returns
    normally whatever the downstream handler does, be it a return, an abort
    or a panic with any value. *)
Theorem recovery_never_panics next r σ :
  is_Some (deref (heap (next (Rec (length (heap σ))) r (withRecorder Conn σ)).1)
                 (length (heap σ))) →
  (recovery next Conn r σ).2 = Ok tt.
Proof.
  intros [re Hre].
  destruct (next (Rec (length (heap σ))) r (withRecorder Conn σ)) as [σ' [[]|v]] eqn:Hnext.
  - by rewrite (recovery_returns next Conn r σ σ' Hnext).
  - destruct (decide (v = ErrAbortHandler)) as [->|Hv].
    + rewrite (recovery_panics next Conn r σ σ' _ Hnext). unfold recovered.
      by rewrite decide_True.
    + rewrite (recovery_panics_logged next Conn r σ σ' v re Hnext Hv Hre).
      destruct (decide (status re = 0)); [|done].
      by apply http_Error_returns.
Qed.

(** X9: The access line of a GET of [/openapi.yaml]: it is the one record the
    request adds to the log, with status 200 and the length of the embedded
    document as its byte count. *)
Theorem openapi_access_line muxRest r σ :
  Method r = "GET" → Path r = "/openapi.yaml" →
  conn σ = nethttp.new →
  len openapi ≤ maxInt →
  logs (route muxRest Conn r σ).1
  = logs σ ++ [LogAccessed (Method r) (Path r) (RawQuery r) (RemoteAddr r) 200 (len openapi)].
Proof.
  intros Hm Hp Hc Hfit. destruct σ as [h hd c ls]. simpl in Hc. subst c.
  unfold route.
  erewrite recovery_returns; last first.
  { eapply accesslog_returns.
    - rewrite (mux_openapi _ _ _ Hm Hp). apply handleGetOpenapi_chain.
    - simpl. by rewrite Nat.eqb_refl. }
  simpl. rewrite Z.add_0_l, wrapInt_small; [done|].
  unfold len in *. lia.
Qed.

(** [handleGetHealth] under the two recorders of [route] when the encoding
    succeeds. *)
Lemma handleGetHealth_chain_encoded h hd ls r (b : list byte) :
  json_Marshal healthResponse = inl b →
  handleGetHealth (Rec (S (length h))) r
    (mkWorld (mkRecorder (Rec (length h)) 0 0 :: mkRecorder Conn 0 0 :: h) hd nethttp.new ls)
  = let hd' := Header_Set "Content-Type" "application/json" hd in
    (mkWorld (mkRecorder (Rec (length h)) 200 (wrapInt (0 + len (b ++ bytes_of newline)))
              :: mkRecorder Conn 200 (wrapInt (0 + len (b ++ bytes_of newline))) :: h)
             hd' (nethttp.mk true 200 hd' [] (b ++ bytes_of newline) None
                             (nethttp.room nethttp.new)) ls,
     Ok tt).
Proof.
  intros Hb. unfold handleGetHealth, json_Encode. rewrite Hb.
  unfold mbind, M_bind, bind, Header, Set_, WriteHeader, Write, mret, M_ret, ret.
  run. unfold nethttp.Write. simpl. by rewrite len_json_line.
Qed.

(** X10: The access line of a GET of [/health]: it is the one record the request
    adds to the log, with status 200 and the length of the encoded body,
    newline included, as its byte count. *)
Theorem health_access_line muxRest r σ (b : list byte) :
  Method r = "GET" → Path r = "/health" →
  conn σ = nethttp.new →
  json_Marshal healthResponse = inl b →
  len (b ++ bytes_of newline) ≤ maxInt →
  logs (route muxRest Conn r σ).1
  = logs σ ++ [LogAccessed (Method r) (Path r) (RawQuery r) (RemoteAddr r) 200
                           (len (b ++ bytes_of newline))].
Proof.
  intros Hm Hp Hc Hb Hfit. destruct σ as [h hd c ls]. simpl in Hc. subst c.
  unfold route.
  erewrite recovery_returns; last first.
  { eapply accesslog_returns.
    - rewrite (mux_health _ _ _ Hm Hp). by apply handleGetHealth_chain_encoded.
    - simpl. by rewrite Nat.eqb_refl. }
  simpl. rewrite Z.add_0_l, wrapInt_small; [done|].
  unfold len in *. lia.
Qed.

(** [http.Error] on the server's writer after a status was committed, on a
    connection that takes the bytes: the text with its newline is appended
    to the body of the response that is under way. *)
Lemma http_Error_appends_when_committed (msg : string) (code : Z) σ :
  nethttp.wroteHeader (conn σ) = true →
  nethttp.connError (conn σ) = None →
  nethttp.bodyAllowedForStatus (nethttp.status (conn σ)) = true →
  (http_Error Conn msg code σ).2 = Ok tt
  ∧ nethttp.status (conn (http_Error Conn msg code σ).1) = nethttp.status (conn σ)
  ∧ nethttp.sent (conn (http_Error Conn msg code σ).1) = nethttp.sent (conn σ)
  ∧ nethttp.body (conn (http_Error Conn msg code σ).1)
    = nethttp.body (conn σ) ++ bytes_of (msg +:+ newline).
Proof.
  intros Hw He Hbody. destruct σ as [h hd [wrote st snt inf bd ce rm] ls].
  simpl in Hw, He, Hbody. subst wrote ce.
  unfold http_Error, mbind, M_bind, bind, Header, Set_, Del, WriteHeader, Write,
    mret, M_ret, ret.
  run. unfold nethttp.Write. simpl. by rewrite len_line, Hbody.
Qed.

(** The fallback of [recovery] when the handler has started the body without
    calling [WriteHeader]: the recorder shows status 0, so [http.Error] runs
    on a response that the server has committed already; the status that
    went out stays and the text of the panic is appended to the body. *)
Lemma fallback_on_committed_response next r σ σ' (v : any) (re : responseRecorder) :
  next (Rec (length (heap σ))) r (withRecorder Conn σ) = (σ', Panicked v) →
  v ≠ ErrAbortHandler →
  deref (heap σ') (length (heap σ)) = Some re →
  status re = 0 →
  nethttp.wroteHeader (conn σ') = true →
  nethttp.connError (conn σ') = None →
  nethttp.bodyAllowedForStatus (nethttp.status (conn σ')) = true →
  nethttp.status (conn (recovery next Conn r σ).1) = nethttp.status (conn σ')
  ∧ nethttp.body (conn (recovery next Conn r σ).1)
    = nethttp.body (conn σ') ++ bytes_of (Sprint v +:+ newline).
Proof.
  intros Hnext Hv Hre Hs Hw He Hbody.
  rewrite (recovery_panics_logged next Conn r σ σ' v re Hnext Hv Hre).
  rewrite decide_True by done.
  destruct (http_Error_appends_when_committed (Sprint v) 500 (panicLogged v r σ') Hw He Hbody)
    as (_ & Hst & _ & Hbd).
  by rewrite Hst, Hbd.
Qed.

(** [handleGetHealth] under the two recorders of [route] when the write of the
    encoded body fails: the 200 was committed before, [http.Error] only
    changes what the recorders show. *)
Lemma handleGetHealth_chain_failed h hd ls r (b : list byte) (e : error) (rm : Z) :
  json_Marshal healthResponse = inl b →
  rm < len (b ++ bytes_of newline) →
  ∃ n : Z,
    handleGetHealth (Rec (S (length h))) r
      (mkWorld (mkRecorder (Rec (length h)) 0 0 :: mkRecorder Conn 0 0 :: h) hd
               (nethttp.mk false 0 ∅ [] [] (Some e) rm) ls)
    = (mkWorld (mkRecorder (Rec (length h)) 500 n :: mkRecorder Conn 500 n :: h)
               (Header_Set "X-Content-Type-Options" "nosniff"
                  (Header_Set "Content-Type" "text/plain; charset=utf-8"
                     (Header_Del "Content-Length"
                        (Header_Set "Content-Type" "application/json" hd))))
               (nethttp.mk true 200 (Header_Set "Content-Type" "application/json" hd) []
                           [] (Some e) 0) ls,
       Ok tt).
Proof.
  intros Hb Hrm. eexists.
  unfold handleGetHealth, json_Encode. rewrite Hb.
  unfold http_Error, mbind, M_bind, bind, Header, Set_, Del, WriteHeader, Write,
    mret, M_ret, ret.
  run. unfold nethttp.Write. simpl. rewrite len_json_line. simpl.
  replace (len (b ++ bytes_of newline) <=? rm) with false by (symmetry; apply Z.leb_gt; lia).
  run. unfold nethttp.Write. simpl. rewrite len_line. simpl.
  replace (len (bytes_of (e +:+ newline)) <=? 0) with false; [reflexivity|].
  symmetry. apply Z.leb_gt. pose proof (len_line e) as Hl. apply Z.eqb_neq in Hl.
  unfold len in *. lia.
Qed.

(** A GET of [/health] whose [Encode] fails because the connection has gone
    away and the encoded body does not fit the buffers: the response keeps
    the status 200 and the content type it was committed with, and the one
    record of the request is an access line with status 500. *)
Lemma health_write_failure_is_200 muxRest r σ (b : list byte) (e : error) (rm : Z) :
  Method r = "GET" → Path r = "/health" →
  conn σ = nethttp.mk false 0 ∅ [] [] (Some e) rm →
  json_Marshal healthResponse = inl b →
  rm < len (b ++ bytes_of newline) →
  nethttp.status (conn (route muxRest Conn r σ).1) = 200
  ∧ Header_Get "Content-Type" (nethttp.sent (conn (route muxRest Conn r σ).1))
    = "application/json"
  ∧ ∃ n : Z, logs (route muxRest Conn r σ).1
             = logs σ ++ [LogAccessed (Method r) (Path r) (RawQuery r) (RemoteAddr r) 500 n].
Proof.
  intros Hm Hp Hc Hb Hrm. destruct σ as [h hd c ls]. simpl in Hc. subst c.
  destruct (handleGetHealth_chain_failed h hd ls r b e rm Hb Hrm) as [n Hrun].
  unfold route.
  erewrite recovery_returns; last first.
  { eapply accesslog_returns.
    - rewrite (mux_health _ _ _ Hm Hp). apply Hrun.
    - simpl. by rewrite Nat.eqb_refl. }
  simpl. rewrite Header_Get_Set. repeat split. by exists n.
Qed.

(** X8: A panic before anything was sent is answered with a 500: when the
    handler panics with a value other than the sentinel, having left the
    recorder at status 0 and the server's writer uncommitted and writable,
    the response goes out with status 500, content type
    [text/plain; charset=utf-8] and the string form of the panic value
    followed by a newline as its body. *)
Theorem panic_before_response_gives_500 next r σ σ' (v : any) (re : responseRecorder) :
  next (Rec (length (heap σ))) r (withRecorder Conn σ) = (σ', Panicked v) →
  v ≠ ErrAbortHandler →
  deref (heap σ') (length (heap σ)) = Some re →
  status re = 0 →
  nethttp.wroteHeader (conn σ') = false →
  nethttp.connError (conn σ') = None →
  (recovery next Conn r σ).2 = Ok tt
  ∧ nethttp.status (conn (recovery next Conn r σ).1) = 500
  ∧ Header_Get "Content-Type" (nethttp.sent (conn (recovery next Conn r σ).1))
    = "text/plain; charset=utf-8"
  ∧ nethttp.body (conn (recovery next Conn r σ).1)
    = nethttp.body (conn σ') ++ bytes_of (Sprint v +:+ newline).
Proof.
  intros Hnext Hv Hre Hs Hw He.
  rewrite (recovery_panics_logged next Conn r σ σ' v re Hnext Hv Hre).
  rewrite decide_True by done.
  by apply (http_Error_on_unwritten_response (Sprint v) 500 (panicLogged v r σ')).
Qed.

End Endpoints.

(** ** Runs of the pipeline on the server's writer *)

Section Runs.

#[local] Existing Instance exampleBuild.

(** C1, counterexample: the handler panics and the request leaves no access
    line in the log, only the ["panic!"] record of [recovery]. *)
Lemma access_line_missing_after_panic :
  accessLines (logs (recovery (accesslog panicking) Conn exampleRequest start).1) = 0%nat
  ∧ panicLines (logs (recovery (accesslog panicking) Conn exampleRequest start).1) = 1%nat.
Proof. split; reflexivity. Qed.

(** [route] on a GET of [/health], and a handler that panics. *)
Lemma access_line_iff_handler_returns_witness :
  accessLines (logs (route http_NotFound Conn exampleRequest start).1) = 1%nat
  ∧ accessLines (logs (recovery (accesslog writeThenPanic) Conn exampleRequest start).1) = 0%nat.
Proof.
  split.
  - exact (access_line_iff_handler_returns (mux http_NotFound) Conn exampleRequest start
             (mux http_NotFound (Rec 1) exampleRequest
                  (withRecorder (Rec 0) (withRecorder Conn start))).1
             (Ok tt) (mkRecorder (Rec 0) 200 86) eq_refl eq_refl).
  - exact (access_line_iff_handler_returns writeThenPanic Conn exampleRequest start
             (writeThenPanic (Rec 1) exampleRequest
                  (withRecorder (Rec 0) (withRecorder Conn start))).1
             (Panicked (StringValue "boom")) (mkRecorder (Rec 0) 0 2) eq_refl eq_refl).
Defined.

(** A handler that aborts behind [accesslog]: the two recorders are all that
    is left of the request. *)
Lemma recovery_swallows_abort_witness :
  recovery (accesslog aborting) Conn exampleRequest start
  = (withRecorder (Rec 0) (withRecorder Conn start), Ok tt).
Proof.
  exact (recovery_swallows_abort (accesslog aborting) Conn exampleRequest start
           (withRecorder (Rec 0) (withRecorder Conn start)) eq_refl).
Defined.

(** A handler that panics at once gets the fallback; one that has set 404
    before only gets the log record. *)
Lemma recovery_panic_response_witness :
  recovery (accesslog panicking) Conn exampleRequest start
  = http_Error Conn "boom" 500
      (panicLogged (StringValue "boom") exampleRequest
                   (withRecorder (Rec 0) (withRecorder Conn start)))
  ∧ recovery (accesslog statusThenPanic) Conn exampleRequest start
    = (panicLogged (StringValue "boom") exampleRequest
         (accesslog statusThenPanic (Rec 0) exampleRequest (withRecorder Conn start)).1,
       Ok tt).
Proof.
  split.
  - refine (proj1 (recovery_panic_response (accesslog panicking) Conn exampleRequest start
                     (withRecorder (Rec 0) (withRecorder Conn start))
                     (StringValue "boom") (mkRecorder Conn 0 0) eq_refl _ eq_refl) eq_refl).
    discriminate.
  - refine (proj2 (recovery_panic_response (accesslog statusThenPanic) Conn exampleRequest start
                     (accesslog statusThenPanic (Rec 0) exampleRequest
                                (withRecorder Conn start)).1
                     (StringValue "boom") (mkRecorder Conn 404 0) eq_refl _ eq_refl) _);
      discriminate.
Defined.

(** After the fallback the recorder of [recovery] still counts the two bytes
    of the handler only, although the text of the panic went out. *)
Lemma recovery_fallback_keeps_recorder_witness :
  deref (heap (recovery (accesslog writeThenPanic) Conn exampleRequest start).1) 0
  = Some (mkRecorder Conn 0 2)
  ∧ nethttp.body (conn (recovery (accesslog writeThenPanic) Conn exampleRequest start).1)
    = bytes_of ("hiboom" +:+ newline).
Proof.
  split; [|reflexivity].
  refine (proj2 (recovery_fallback_keeps_recorder (accesslog writeThenPanic) Conn
                   exampleRequest start
                   (accesslog writeThenPanic (Rec 0) exampleRequest (withRecorder Conn start)).1
                   (StringValue "boom") (mkRecorder Conn 0 2) I eq_refl _ eq_refl eq_refl)).
  discriminate.
Defined.

(** Seven bytes are counted on a connection that has gone away. *)
Lemma recorder_counts_bytes_witness :
  bytesPassed [DoSet "Content-Type" "text/plain"; DoWrite (bytes_of "hi");
               DoWriteHeader 200; DoWrite (bytes_of "there")] ≤ maxInt
  ∧ numBytes <$> deref (heap (callEach (Rec 0)
                                [DoSet "Content-Type" "text/plain"; DoWrite (bytes_of "hi");
                                 DoWriteHeader 200; DoWrite (bytes_of "there")]
                                (withRecorder Conn brokenStart)).1) 0
    = Some 7.
Proof.
  assert (Hfit : bytesPassed [DoSet "Content-Type" "text/plain"; DoWrite (bytes_of "hi");
                              DoWriteHeader 200; DoWrite (bytes_of "there")] ≤ maxInt)
    by (vm_compute; discriminate).
  split; [exact Hfit|].
  exact (proj2 (recorder_counts_bytes Conn brokenStart
                  [DoSet "Content-Type" "text/plain"; DoWrite (bytes_of "hi");
                   DoWriteHeader 200; DoWrite (bytes_of "there")] Hfit)).
Defined.

(** C4, counterexample: after [WriteHeader(200)] the recorder shows 200;
    a second call, [WriteHeader(404)], replaces it, while the response went
    out with the 200 of the first call. *)
Lemma recorder_status_overwritten :
  status <$> deref (heap (callEach (Rec 0) [DoWriteHeader 200] (withRecorder Conn start)).1) 0
  = Some 200
  ∧ status <$> deref (heap (callEach (Rec 0) [DoWriteHeader 200; DoWriteHeader 404]
                                     (withRecorder Conn start)).1) 0
    = Some 404
  ∧ nethttp.status (conn (callEach (Rec 0) [DoWriteHeader 200; DoWriteHeader 404]
                                   (withRecorder Conn start)).1)
    = 200.
Proof. repeat split; reflexivity. Qed.

(** Two different GETs of [/health], the second later in the life of the
    process. *)
Lemma health_response_fixed_witness :
  nethttp.body (conn (route http_NotFound Conn exampleRequest start).1) = healthBody
  ∧ nethttp.body (conn (route http_NotFound Conn
                              (mkRequest "GET" "/health" "verbose=1" "10.0.0.7:5123")
                              (logged (LogOpenapiWrite "earlier") start)).1) = healthBody.
Proof.
  pose proof (health_response_fixed http_NotFound exampleRequest
                (mkRequest "GET" "/health" "verbose=1" "10.0.0.7:5123")
                start (logged (LogOpenapiWrite "earlier") start)
                eq_refl eq_refl eq_refl eq_refl eq_refl eq_refl) as (_ & _ & H1 & H2 & _).
  exact (conj H1 H2).
Defined.

(** A GET of [/openapi.yaml]. *)
Lemma openapi_response_witness :
  nethttp.status (conn (route http_NotFound Conn openapiRequest start).1) = 200
  ∧ nethttp.body (conn (route http_NotFound Conn openapiRequest start).1) = openapi.
Proof.
  pose proof (openapi_response http_NotFound openapiRequest start eq_refl eq_refl eq_refl)
    as (_ & H1 & _ & _ & H2).
  exact (conj H1 H2).
Defined.


(** C2, at the failing input: the handler writes the start of a body, without
    a call of [WriteHeader], and panics.  The server has committed status 200
    by then, but the recorder of [recovery] shows status 0: the fallback is
    written all the same, so the response is no 500 and the text of the panic
    is one more write on a response whose status was committed. *)
Theorem fallback_written_to_committed_response :
  (accesslog writeThenFail (Rec 0) exampleRequest (withRecorder Conn start)).2
  = Panicked (ErrorValue "db down")
  ∧ nethttp.wroteHeader (conn (accesslog writeThenFail (Rec 0) exampleRequest
                                         (withRecorder Conn start)).1) = true
  ∧ nethttp.status (conn (accesslog writeThenFail (Rec 0) exampleRequest
                                    (withRecorder Conn start)).1) = 200
  ∧ nethttp.body (conn (accesslog writeThenFail (Rec 0) exampleRequest
                                  (withRecorder Conn start)).1) = bytes_of "partial"
  ∧ nethttp.status (conn (recovery (accesslog writeThenFail) Conn exampleRequest start).1)
    = 200
  ∧ nethttp.body (conn (recovery (accesslog writeThenFail) Conn exampleRequest start).1)
    = bytes_of ("partialdb down" +:+ newline).
Proof. repeat split; reflexivity. Qed.

(** C9, at the failing input: the handler writes body bytes without calling
    [WriteHeader] and panics.  Both recorders still show status 0 although
    the server's writer has committed status 200, so [recovery] takes the
    response for unwritten and sends its fallback, which ends up appended to
    the body of the 200 response. *)
Theorem status_check_misses_implicit_commit :
  (accesslog writeThenPanic (Rec 0) exampleRequest (withRecorder Conn start)).2
  = Panicked (StringValue "boom")
  ∧ status <$> deref (heap (accesslog writeThenPanic (Rec 0) exampleRequest
                                      (withRecorder Conn start)).1) 0
    = Some 0
  ∧ nethttp.wroteHeader (conn (accesslog writeThenPanic (Rec 0) exampleRequest
                                         (withRecorder Conn start)).1) = true
  ∧ nethttp.status (conn (recovery (accesslog writeThenPanic) Conn exampleRequest start).1)
    = 200
  ∧ nethttp.body (conn (recovery (accesslog writeThenPanic) Conn exampleRequest start).1)
    = bytes_of ("hiboom" +:+ newline).
Proof. repeat split; reflexivity. Qed.

End Runs.

(** ** The build metadata of [handleGetHealth] *)

Section Health.

Context {B : Build}.

Implicit Types (settings : list (string * string)) (res : responseBody.t time_Time).

Lemma lastValue_snoc (key k v : string) settings :
  lastValue key (settings ++ [(k, v)])
  = if decide (k = key ∧ v ≠ "") then Some v else lastValue key settings.
Proof.
  unfold lastValue. rewrite omap_app, last_app. simpl.
  by destruct (decide (k = key ∧ v ≠ "")).
Qed.

(** The loop of [handleGetHealth] as three lookups: each field is given by
    the last entry of its key that has a value. *)
Lemma healthSetting_fold settings (version : string) :
  foldl healthSetting (responseBody.mk version "" zeroTime false) settings
  = responseBody.mk version
      (default "" (lastValue "vcs.revision" settings))
      (default zeroTime (lastValue "vcs.time" settings ≫= time_Parse))
      (bool_decide (lastValue "vcs.modified" settings = Some "true")).
Proof.
  induction settings as [|[k v] settings IH] using rev_ind; [done|].
  rewrite foldl_app, IH. simpl. rewrite !lastValue_snoc.
  destruct (decide (v = "")) as [->|Hv].
  { rewrite !decide_False by (by intros [_ ?]). done. }
  destruct (decide (k = "vcs.revision")) as [->|Hr].
  { rewrite decide_True by done. rewrite !decide_False by (by intros [[=] _]). done. }
  rewrite (decide_False (P := k = "vcs.revision" ∧ v ≠ "")) by (by intros [? _]).
  destruct (decide (k = "vcs.time")) as [->|Ht].
  { rewrite decide_True by done. rewrite !decide_False by (by intros [[=] _]). done. }
  rewrite (decide_False (P := k = "vcs.time" ∧ v ≠ "")) by (by intros [? _]).
  destruct (decide (k = "vcs.modified")) as [->|Hm].
  { rewrite decide_True by done. simpl. f_equal.
    apply bool_decide_ext. split; [by intros ->|by intros [= ->]]. }
  by rewrite (decide_False (P := k = "vcs.modified" ∧ v ≠ "")) by (by intros [? _]).
Qed.

(** X12: The fields of the [/health] body: the version is the [Version] variable
    whatever the settings say; the revision is the value of the last
    [vcs.revision] entry that has one, and empty without such an entry; the
    time is that of the last [vcs.time] entry that has a value, the zero time
    if there is none or if it does not parse; the modified flag is set
    exactly when the last [vcs.modified] entry that has a value says
    [true]. *)
Theorem health_fields_from_last_settings :
  healthResponse
  = responseBody.mk Version
      (default "" (lastValue "vcs.revision" buildSettings))
      (default zeroTime (lastValue "vcs.time" buildSettings ≫= time_Parse))
      (bool_decide (lastValue "vcs.modified" buildSettings = Some "true")).
Proof. apply healthSetting_fold. Qed.

(** X13: The loop skips an entry whose value is empty and an entry whose key is
    none of the three it reads: wherever such an entry stands among the
    settings, the result is the one without it. *)
Theorem health_skips_other_settings res settings settings' (k v : string) :
  v = "" ∨ k ∉ healthKeys →
  foldl healthSetting res (settings ++ (k, v) :: settings')
  = foldl healthSetting res (settings ++ settings').
Proof.
  intros Hskip. rewrite !foldl_app. simpl. f_equal.
  destruct (decide (v = "")) as [_|Hv]; [done|].
  destruct Hskip as [?|Hk]; [done|].
  unfold healthKeys in Hk. rewrite !not_elem_of_cons in Hk.
  destruct Hk as (? & ? & ? & _).
  by rewrite !decide_False.
Qed.

(** X14: The error of [time.Parse] is dropped and its zero result kept: when the
    last [vcs.time] entry with a value does not parse, the time of the
    [/health] body is the zero time, also if an earlier entry did parse. *)
Theorem health_time_unparsable_is_zero (v : string) :
  lastValue "vcs.time" buildSettings = Some v →
  time_Parse v = None →
  responseBody.Time_ healthResponse = zeroTime.
Proof.
  intros Hlast Hparse. unfold healthResponse. rewrite healthSetting_fold. simpl.
  by rewrite Hlast; simpl; rewrite Hparse.
Qed.

End Health.

(** ** A write of the OpenAPI document that fails *)

Section WriteFailure.

Context {T : Type} {TR : Transport T} {B : Build}.

Implicit Types (h : store) (σ : @world T) (r : Request) (muxRest : @Handler T).

(** [handleGetOpenapi] under the two recorders of [route], over any writer
    that takes the status and then reports an error for the document. *)
Lemma handleGetOpenapi_chain_failed h hd (c c1 c2 : T) ls r (n : Z) (e : error) :
  tWriteHeader 200 (Header_Set "Access-Control-Allow-Origin" "*"
                      (Header_Set "Content-Type" "text/plain" hd)) c = (c1, Ok tt) →
  tWrite openapi (Header_Set "Access-Control-Allow-Origin" "*"
                    (Header_Set "Content-Type" "text/plain" hd)) c1
  = (c2, Ok (n, Some e)) →
  handleGetOpenapi (Rec (S (length h))) r
    (mkWorld (mkRecorder (Rec (length h)) 0 0 :: mkRecorder Conn 0 0 :: h) hd c ls)
  = (mkWorld (mkRecorder (Rec (length h)) 200 (wrapInt (0 + len openapi))
              :: mkRecorder Conn 200 (wrapInt (0 + len openapi)) :: h)
             (Header_Set "Access-Control-Allow-Origin" "*"
                (Header_Set "Content-Type" "text/plain" hd))
             c2 (ls ++ [LogOpenapiWrite e]),
     Ok tt).
Proof.
  intros Hstatus Hwrite.
  unfold handleGetOpenapi, mbind, M_bind, bind, Header, Set_, WriteHeader, Write, slog.
  repeat (progress (simpl;
    rewrite ?Nat.eqb_refl, ?callHeader_Conn, ?callWriteHeader_Conn, ?callWrite_Conn,
      ?Hstatus, ?Hwrite)).
  reflexivity.
Qed.

(** X11: a failed write of the OpenAPI document is logged and not surfaced.
    Over any writer: when the [Write] of the document reports an error,
    whatever count comes with it, the handler returns normally and makes no
    further call on the writer, which stays as that [Write] left it; the log
    gains the record of the failure, followed by an access line that still
    shows status 200 and counts all the bytes passed to [Write]. *)
Theorem openapi_write_failure_is_logged muxRest r σ (c1 c2 : T) (n : Z) (e : error) :
  Method r = "GET" → Path r = "/openapi.yaml" →
  tWriteHeader 200 (Header_Set "Access-Control-Allow-Origin" "*"
                      (Header_Set "Content-Type" "text/plain" (header σ))) (conn σ)
  = (c1, Ok tt) →
  tWrite openapi (Header_Set "Access-Control-Allow-Origin" "*"
                    (Header_Set "Content-Type" "text/plain" (header σ))) c1
  = (c2, Ok (n, Some e)) →
  len openapi ≤ maxInt →
  (route muxRest Conn r σ).2 = Ok tt
  ∧ conn (route muxRest Conn r σ).1 = c2
  ∧ logs (route muxRest Conn r σ).1
    = logs σ ++ [LogOpenapiWrite e;
                 LogAccessed (Method r) (Path r) (RawQuery r) (RemoteAddr r) 200 (len openapi)].
Proof.
  intros Hm Hp Hstatus Hwrite Hfit. destruct σ as [h hd c ls]. simpl in *.
  unfold route.
  erewrite recovery_returns; last first.
  { eapply accesslog_returns.
    - unfold mux. rewrite decide_False by (rewrite Hp; by intros [_ [=]]).
      rewrite decide_True by done.
      by apply (handleGetOpenapi_chain_failed h hd c c1 c2 ls r n e).
    - simpl. by rewrite Nat.eqb_refl. }
  simpl. rewrite Z.add_0_l, wrapInt_small by (unfold len in *; lia).
  repeat split. by rewrite <- app_assoc.
Qed.

End WriteFailure.

(** ** More runs of the pipeline *)

Section MoreRuns.

#[local] Existing Instance exampleBuild.

(** A handler that never calls [WriteHeader] is logged with status 0 and the
    five bytes it wrote. *)
Lemma access_line_reports_calls_witness :
  accesslog (λ w' _, perform w' helloCalls) Conn exampleRequest start
  = (logged (LogAccessed "GET" "/health" "" "127.0.0.1:4000" 0 5)
            (perform (Rec 0) helloCalls (withRecorder Conn start)).1,
     Ok tt).
Proof.
  assert (Hfit : bytesPassed helloCalls ≤ maxInt) by (vm_compute; discriminate).
  exact (access_line_reports_calls Conn exampleRequest start
           (perform (Rec 0) helloCalls (withRecorder Conn start)).1
           helloCalls eq_refl Hfit).
Defined.

(** The one record of a request whose handler panics behind [accesslog]. *)
Lemma panic_is_logged_once_witness :
  logs (recovery (accesslog writeThenPanic) Conn exampleRequest start).1
  = [LogPanic (StringValue "boom") "goroutine 1 [running]:"
              "GET" "/health" "" "127.0.0.1:4000"].
Proof.
  refine (proj1 (panic_is_logged_once (accesslog writeThenPanic) Conn exampleRequest start
            (accesslog writeThenPanic (Rec 0) exampleRequest (withRecorder Conn start)).1
            (StringValue "boom") eq_refl _)).
  discriminate.
Defined.

(** A handler that panics after it has set a status. *)
Lemma recovery_never_panics_witness :
  (recovery (accesslog statusThenPanic) Conn exampleRequest start).2 = Ok tt.
Proof.
  refine (recovery_never_panics (accesslog statusThenPanic) exampleRequest start _).
  exists (mkRecorder Conn 404 0). reflexivity.
Defined.

(** With 200 and 404 as the codes, the recorder of [recovery] shows a
    status and the handler did call [WriteHeader]. *)
Lemma recovery_status_nonzero_iff_called_witness :
  ∃ re, deref (heap (callEach (Rec 1) [DoWriteHeader 200; DoWrite (bytes_of "hi");
                                       DoWriteHeader 404]
                              (withRecorder (Rec 0) (withRecorder Conn start))).1) 0
        = Some re
        ∧ (status re ≠ 0
           ↔ ∃ code, DoWriteHeader code ∈ [DoWriteHeader 200; DoWrite (bytes_of "hi");
                                           DoWriteHeader 404]).
Proof.
  refine (recovery_status_nonzero_iff_called Conn start
            [DoWriteHeader 200; DoWrite (bytes_of "hi"); DoWriteHeader 404] _).
  intros code Hin.
  repeat (apply elem_of_cons in Hin as [Heq|Hin]; [by simplify_eq|]).
  by apply elem_of_nil in Hin.
Defined.

(** The access line of the example document: 14 bytes. *)
Lemma openapi_access_line_witness :
  logs (route http_NotFound Conn openapiRequest start).1
  = [LogAccessed "GET" "/openapi.yaml" "" "127.0.0.1:4001" 200 14].
Proof.
  assert (Hfit : len openapi ≤ maxInt) by (vm_compute; discriminate).
  exact (openapi_access_line http_NotFound openapiRequest start eq_refl eq_refl eq_refl Hfit).
Defined.

(** The access line of the example [/health] body: 86 bytes. *)
Lemma health_access_line_witness :
  logs (route http_NotFound Conn exampleRequest start).1
  = [LogAccessed "GET" "/health" "" "127.0.0.1:4000" 200 86].
Proof.
  assert (Hfit : len (bytes_of ("{version:v1.0.0,vcs.revision:4f2a9c1,"
                                +:+ "vcs.time:2024-05-01T10:00:00Z,vcs.modified:true}")
                      ++ bytes_of newline) ≤ maxInt)
    by (vm_compute; discriminate).
  exact (health_access_line http_NotFound exampleRequest start _
           eq_refl eq_refl eq_refl eq_refl Hfit).
Defined.

(** A document of 5000 bytes asked for on a connection that has gone away:
    the write takes the 4096 bytes that fit the buffers and fails. *)
Lemma openapi_write_failure_is_logged_witness :
  nethttp.Write (openapi (Build := largeBuild))
                (Header_Set "Access-Control-Allow-Origin" "*"
                   (Header_Set "Content-Type" "text/plain" ∅))
                (nethttp.mk true 200
                   (Header_Set "Access-Control-Allow-Origin" "*"
                      (Header_Set "Content-Type" "text/plain" ∅))
                   [] [] (Some "write: broken pipe") 4096)
  = (nethttp.mk true 200
       (Header_Set "Access-Control-Allow-Origin" "*"
          (Header_Set "Content-Type" "text/plain" ∅))
       [] [] (Some "write: broken pipe") 0,
     Ok (4096, Some "write: broken pipe"))
  ∧ logs (route (B := largeBuild) http_NotFound Conn openapiRequest brokenStart).1
    = [LogOpenapiWrite "write: broken pipe";
       LogAccessed "GET" "/openapi.yaml" "" "127.0.0.1:4001" 200 5000].
Proof.
  assert (Hfit : len (openapi (Build := largeBuild)) ≤ maxInt) by (vm_compute; discriminate).
  assert (Hwrite :
    nethttp.Write (openapi (Build := largeBuild))
                  (Header_Set "Access-Control-Allow-Origin" "*"
                     (Header_Set "Content-Type" "text/plain" ∅))
                  (nethttp.mk true 200
                     (Header_Set "Access-Control-Allow-Origin" "*"
                        (Header_Set "Content-Type" "text/plain" ∅))
                     [] [] (Some "write: broken pipe") 4096)
    = (nethttp.mk true 200
         (Header_Set "Access-Control-Allow-Origin" "*"
            (Header_Set "Content-Type" "text/plain" ∅))
         [] [] (Some "write: broken pipe") 0,
       Ok (4096, Some "write: broken pipe"))) by (vm_compute; reflexivity).
  split; [exact Hwrite|].
  exact (proj2 (proj2
           (openapi_write_failure_is_logged (B := largeBuild) http_NotFound openapiRequest
              brokenStart _ _ 4096 "write: broken pipe" eq_refl eq_refl eq_refl Hwrite Hfit))).
Defined.

(** An entry of another key between two that count. *)
Lemma health_skips_other_settings_witness :
  foldl healthSetting (responseBody.mk "v1.0.0" "" zeroTime false)
        ([("vcs.revision", "4f2a9c1")] ++ ("GOOS", "linux") :: [("vcs.modified", "true")])
  = foldl healthSetting (responseBody.mk "v1.0.0" "" zeroTime false)
          ([("vcs.revision", "4f2a9c1")] ++ [("vcs.modified", "true")]).
Proof.
  refine (health_skips_other_settings (responseBody.mk "v1.0.0" "" zeroTime false)
            [("vcs.revision", "4f2a9c1")] [("vcs.modified", "true")] "GOOS" "linux" _).
  right. unfold healthKeys. rewrite !not_elem_of_cons.
  repeat split; try discriminate. apply not_elem_of_nil.
Defined.

(** The second stamp of [restampedBuild] does not parse. *)
Lemma health_time_unparsable_is_zero_witness :
  responseBody.Time_ (healthResponse (B := restampedBuild)) = "0001-01-01T00:00:00Z".
Proof.
  exact (health_time_unparsable_is_zero (B := restampedBuild) "yesterday" eq_refl eq_refl).
Defined.

(** A handler that panics at once, on a new response. *)
Lemma panic_before_response_gives_500_witness :
  nethttp.status (conn (recovery (accesslog panicking) Conn exampleRequest start).1) = 500
  ∧ nethttp.body (conn (recovery (accesslog panicking) Conn exampleRequest start).1)
    = bytes_of ("boom" +:+ newline).
Proof.
  pose proof (panic_before_response_gives_500 (accesslog panicking) exampleRequest start
                (withRecorder (Rec 0) (withRecorder Conn start))
                (StringValue "boom") (mkRecorder Conn 0 0)
                eq_refl ltac:(discriminate) eq_refl eq_refl eq_refl eq_refl)
    as (_ & H1 & _ & H2).
  exact (conj H1 H2).
Defined.

(** An error that only reads like the sentinel is not swallowed. *)
Lemma recovery_silent_only_for_abort_witness :
  recovery (λ _ _, panic (ErrorValue "net/http: abort Handler")) Conn exampleRequest start
  ≠ (withRecorder Conn start, Ok tt).
Proof.
  intros Hsilent.
  pose proof (proj1 (recovery_silent_only_for_abort
                       (λ _ _, panic (ErrorValue "net/http: abort Handler"))
                       Conn exampleRequest start (withRecorder Conn start)
                       (ErrorValue "net/http: abort Handler") eq_refl) Hsilent) as Habs.
  discriminate Habs.
Defined.

End MoreRuns.
